(** * gigabytekbd: the HID driver for Gigabyte laptop keyboards

    A shallow embedding of [src/driver/gigabytekbd_driver.c] and of the
    touchpad identifier table of [src/driver/gigabytekbd_driver.h].

    The driver keeps its state in file-scope statics; here they are the
    fields of one record that every entry point threads through.  The kernel
    services the driver calls (input core, HID core, backlight class, driver
    core, system work queue) are modelled by their visible effect: each call
    is appended to a log, and the few pieces of kernel state the driver reads
    back (the backlight power property, the driver bound to the touchpad, the
    pending bit of a work item) are kept next to the statics.  A NULL
    dereference or a read past the report buffer ends a call with [Oops]. *)

From Stdlib Require Import ZArith Lia String.
From stdpp Require Import base tactics option list.

Local Open Scope Z_scope.

(** ** Machine integers *)

(** [u32]: conversion of a C value to a 32-bit unsigned integer. *)
Definition u32 (x : Z) : Z := x mod 2 ^ 32.

Definition INT_MAX : Z := 2 ^ 31 - 1.

(** [int_wrap]: a C [int] after an arithmetic step, two's complement
    (the kernel is built with wrapping signed arithmetic). *)
Definition int_wrap (x : Z) : Z := (x + 2 ^ 31) mod 2 ^ 32 - 2 ^ 31.

(** A [u8] holds a value in [0, 256). *)
Definition is_u8 (b : Z) : bool := (0 <=? b) && (b <? 256).

(** ** Fn key HID raw event codes *)

Definition HIDRAW_FN_ESC : Z := 0x04000084.
Definition HIDRAW_FN_F2 : Z := 0x0400007C.
Definition HIDRAW_FN_F3 : Z := 0x0400007D.
Definition HIDRAW_FN_F4 : Z := 0x0400007E.
Definition HIDRAW_FN_F5 : Z := 0x0400007F.
Definition HIDRAW_FN_F6 : Z := 0x04000080.
Definition HIDRAW_FN_F8_PRESS : Z := 0x04000186.
Definition HIDRAW_FN_F8_RELEASE : Z := 0x04000086.
Definition HIDRAW_FN_F9_PRESS : Z := 0x04000187.
Definition HIDRAW_FN_F9_RELEASE : Z := 0x04000087.
Definition HIDRAW_FN_F10 : Z := 0x04000081.
Definition HIDRAW_FN_F11 : Z := 0x04000082.
Definition HIDRAW_FN_F12 : Z := 0x04000083.
Definition HIDRAW_FN_F12_ALT : Z := 0x04000088.

(** The codes the [switch] of [gigabyte_kbd_raw_event] has a case for. *)
Definition fn_catalog : list Z :=
  [ HIDRAW_FN_ESC; HIDRAW_FN_F2; HIDRAW_FN_F3; HIDRAW_FN_F4; HIDRAW_FN_F5;
    HIDRAW_FN_F6; HIDRAW_FN_F8_PRESS; HIDRAW_FN_F8_RELEASE;
    HIDRAW_FN_F9_PRESS; HIDRAW_FN_F9_RELEASE; HIDRAW_FN_F10; HIDRAW_FN_F11;
    HIDRAW_FN_F12; HIDRAW_FN_F12_ALT ].

(** [make_u32(a, b, c, d)]: [(a) << 24 | (b) << 16 | (c) << 8 | (d)].  The
    operands are promoted to [int]; the value is converted with [u32] where
    it is assigned to [hidraw]. *)
Definition make_u32 (a b c d : Z) : Z :=
  Z.lor (Z.lor (Z.lor (Z.shiftl a 24) (Z.shiftl b 16)) (Z.shiftl c 8)) d.

(** ** Kernel objects the driver points to *)

(** The key codes of [linux/input-event-codes.h] the driver uses. *)
Inductive key : Type :=
  | KEY_WLAN | KEY_SWITCHVIDEOMODE | KEY_VOLUMEDOWN | KEY_VOLUMEUP
  | KEY_RFKILL | KEY_PROG1 | KEY_PROG2.

(** A [struct input_dev *] and a [struct device_driver *] are known by the
    identity of the object they point to. *)
Definition input_dev : Type := nat.
Definition device_driver : Type := nat.

(** [linux/fb.h] *)
Definition FB_BLANK_UNBLANK : Z := 0.
Definition FB_BLANK_POWERDOWN : Z := 4.

(** [struct backlight_device], the part the driver reads: [props.power]. *)
Record backlight_device : Type := { props_power : Z }.

(** [struct acpi_device], the part the touchpad matcher reads. *)
Record acpi_device : Type :=
  { acpi_device_hid : string; acpi_device_bid : string; pnp_instance_no : Z }.

(** [struct device]: its ACPI companion and the driver bound to it. *)
Record device : Type :=
  { ACPI_COMPANION : option acpi_device; driver : option device_driver }.

(** The two statically declared work items ([DECLARE_WORK]). *)
Inductive work : Type :=
  | gigabyte_kbd_backlight_toggle_work
  | gigabyte_kbd_touchpad_toggle_driver_work.

#[global] Instance work_eq_dec : EqDecision work.
Proof. solve_decision. Defined.

#[global] Instance key_eq_dec : EqDecision key.
Proof. solve_decision. Defined.

(** The kernel calls the driver makes, as they appear in the log. *)
Inductive event : Type :=
  | InputReportKey (dev : input_dev) (k : key) (value : Z)
  | InputSync (dev : input_dev)
  | HidReportRawEvent (data : list Z)
  | ScheduleWork (w : work)
  | RunWork (w : work)
  | BacklightEnable
  | BacklightDisable
  | DeviceReleaseDriver
  | DeviceDriverAttach (drv : device_driver) (err : Z)
  | SetKeybit (dev : input_dev) (k : key)
  | InputRegisterDevice (dev : input_dev) (keybit : list key) (err : Z)
  | InputFreeDevice (dev : input_dev)
  | InputUnregisterDevice (dev : input_dev)
  | HidHwStop.

#[global] Instance event_eq_dec : EqDecision event.
Proof. solve_decision. Defined.

(** ** Global state shared across HID interfaces

    [gigabyte_kbd_priv] and the per-device [struct gigabyte_kbd_data] are
    only written (copies of the three pointers below), never read; they
    are left out. *)

Record state : Type := mkState
  { gigabyte_kbd_input_dev : option input_dev;
    gigabyte_kbd_consumer_dev : option input_dev;
    gigabyte_kbd_refcount : Z;
    gigabyte_kbd_backlight_device : option backlight_device;
    gigabyte_kbd_touchpad_driver : option device_driver;
    gigabyte_kbd_touchpad_device : option device;
    (** the system work queue: the work items whose pending bit is set,
        oldest first *)
    wq_pending : list work;
    (** the kernel calls made so far, oldest first *)
    klog : list event }.

(** The statics are zero-initialised when the module is loaded. *)
Definition init : state :=
  mkState None None 0 None None None [] [].

Definition set_input_dev (v : option input_dev) (s : state) : state :=
  mkState v (gigabyte_kbd_consumer_dev s) (gigabyte_kbd_refcount s)
    (gigabyte_kbd_backlight_device s) (gigabyte_kbd_touchpad_driver s)
    (gigabyte_kbd_touchpad_device s) (wq_pending s) (klog s).

Definition set_consumer_dev (v : option input_dev) (s : state) : state :=
  mkState (gigabyte_kbd_input_dev s) v (gigabyte_kbd_refcount s)
    (gigabyte_kbd_backlight_device s) (gigabyte_kbd_touchpad_driver s)
    (gigabyte_kbd_touchpad_device s) (wq_pending s) (klog s).

Definition set_refcount (v : Z) (s : state) : state :=
  mkState (gigabyte_kbd_input_dev s) (gigabyte_kbd_consumer_dev s) v
    (gigabyte_kbd_backlight_device s) (gigabyte_kbd_touchpad_driver s)
    (gigabyte_kbd_touchpad_device s) (wq_pending s) (klog s).

Definition set_backlight_device (v : option backlight_device) (s : state) : state :=
  mkState (gigabyte_kbd_input_dev s) (gigabyte_kbd_consumer_dev s)
    (gigabyte_kbd_refcount s) v (gigabyte_kbd_touchpad_driver s)
    (gigabyte_kbd_touchpad_device s) (wq_pending s) (klog s).

Definition set_touchpad_driver (v : option device_driver) (s : state) : state :=
  mkState (gigabyte_kbd_input_dev s) (gigabyte_kbd_consumer_dev s)
    (gigabyte_kbd_refcount s) (gigabyte_kbd_backlight_device s) v
    (gigabyte_kbd_touchpad_device s) (wq_pending s) (klog s).

Definition set_touchpad_device (v : option device) (s : state) : state :=
  mkState (gigabyte_kbd_input_dev s) (gigabyte_kbd_consumer_dev s)
    (gigabyte_kbd_refcount s) (gigabyte_kbd_backlight_device s)
    (gigabyte_kbd_touchpad_driver s) v (wq_pending s) (klog s).

Definition set_wq_pending (v : list work) (s : state) : state :=
  mkState (gigabyte_kbd_input_dev s) (gigabyte_kbd_consumer_dev s)
    (gigabyte_kbd_refcount s) (gigabyte_kbd_backlight_device s)
    (gigabyte_kbd_touchpad_driver s) (gigabyte_kbd_touchpad_device s) v
    (klog s).

(** [emit e s]: the kernel call [e] is made. *)
Definition emit (e : event) (s : state) : state :=
  mkState (gigabyte_kbd_input_dev s) (gigabyte_kbd_consumer_dev s)
    (gigabyte_kbd_refcount s) (gigabyte_kbd_backlight_device s)
    (gigabyte_kbd_touchpad_driver s) (gigabyte_kbd_touchpad_device s)
    (wq_pending s) (klog s ++ [e]).

(** ** Calls that can fault *)

Inductive fault : Type := NullDeref | OutOfBounds.

Inductive outcome (A : Type) : Type :=
  | Done (a : A)
  | Oops (why : fault).
Arguments Done {A} a.
Arguments Oops {A} why.

#[global] Instance outcome_ret : MRet outcome := fun A a => Done a.
#[global] Instance outcome_bind : MBind outcome := fun A B f m =>
  match m with
  | Done a => f a
  | Oops why => Oops why
  end.

(** [rd[i]] read and written through the [u8 *] of the report buffer. *)
Definition load (rd : list Z) (i : nat) : outcome Z :=
  match rd !! i with
  | Some b => Done b
  | None => Oops OutOfBounds
  end.

Definition store (rd : list Z) (i : nat) (v : Z) : outcome (list Z) :=
  if decide (i < length rd)%nat then Done (<[i := v]> rd) else Oops OutOfBounds.

(** ** Kernel services *)

Definition input_report_key (dev : input_dev) (k : key) (value : Z) (s : state) : state :=
  emit (InputReportKey dev k value) s.

Definition input_sync (dev : input_dev) (s : state) : state :=
  emit (InputSync dev) s.

(** [hid_report_raw_event(hdev, HID_INPUT_REPORT, rd, size, 0)] hands the
    first [size] bytes of [rd] to the HID core. *)
Definition hid_report_raw_event (rd : list Z) (size : nat) (s : state) : state :=
  emit (HidReportRawEvent (take size rd)) s.

(** [schedule_work(w)]: the work item is queued unless its pending bit is
    already set; the bit stays set until the worker picks the item up. *)
Definition schedule_work (w : work) (s : state) : state :=
  let s := emit (ScheduleWork w) s in
  if decide (w ∈ wq_pending s) then s
  else set_wq_pending (wq_pending s ++ [w]) s.

(** [backlight_enable(bd)] and [backlight_disable(bd)] set [props.power]
    and update the device. *)
Definition backlight_enable (s : state) : outcome state :=
  match gigabyte_kbd_backlight_device s with
  | None => Oops NullDeref
  | Some _ =>
      Done (emit BacklightEnable
              (set_backlight_device (Some {| props_power := FB_BLANK_UNBLANK |}) s))
  end.

Definition backlight_disable (s : state) : outcome state :=
  match gigabyte_kbd_backlight_device s with
  | None => Oops NullDeref
  | Some _ =>
      Done (emit BacklightDisable
              (set_backlight_device (Some {| props_power := FB_BLANK_POWERDOWN |}) s))
  end.

(** [device_release_driver(dev)] unbinds the driver of the touchpad. *)
Definition device_release_driver (s : state) : outcome state :=
  match gigabyte_kbd_touchpad_device s with
  | None => Oops NullDeref
  | Some dev =>
      Done (emit DeviceReleaseDriver
              (set_touchpad_device
                 (Some {| ACPI_COMPANION := ACPI_COMPANION dev; driver := None |}) s))
  end.

(** [device_driver_attach(drv, dev)]: the driver core answers [err]; the
    driver is bound when the answer is 0. *)
Definition device_driver_attach (drv : device_driver) (err : Z) (s : state)
  : outcome (Z * state) :=
  match gigabyte_kbd_touchpad_device s with
  | None => Oops NullDeref
  | Some dev =>
      let s := emit (DeviceDriverAttach drv err) s in
      if err =? 0 then
        Done (err, set_touchpad_device
                     (Some {| ACPI_COMPANION := ACPI_COMPANION dev;
                              driver := Some drv |}) s)
      else Done (err, s)
  end.

(** ** The two deferred toggles *)

Definition gigabyte_kbd_is_backlight_off (s : state) : outcome bool :=
  match gigabyte_kbd_backlight_device s with
  | None => Oops NullDeref
  | Some bd => Done (props_power bd =? FB_BLANK_POWERDOWN)
  end.

Definition gigabyte_kbd_backlight_toggle (s : state) : outcome state :=
  off ← gigabyte_kbd_is_backlight_off s;
  if off : bool then backlight_enable s else backlight_disable s.

(** [err] is what the driver core answers should the function call
    [device_driver_attach]. *)
Definition gigabyte_kbd_touchpad_toggle_driver (err : Z) (s : state) : outcome state :=
  match gigabyte_kbd_touchpad_device s with
  | None => Oops NullDeref
  | Some dev =>
      match driver dev with
      | Some drv =>
          device_release_driver (set_touchpad_driver (Some drv) s)
      | None =>
          match gigabyte_kbd_touchpad_driver s with
          | Some drv =>
              r ← device_driver_attach drv err s;
              Done (snd r)
          | None => Done s
          end
      end
  end.

(** ** Key emission *)

(** Emit a key press and release event. *)
Definition gigabyte_kbd_emit_key (input : option input_dev) (k : key) (s : state) : state :=
  match input with
  | None => s
  | Some input =>
      input_sync input
        (input_report_key input k 0
           (input_sync input
              (input_report_key input k 1 s)))
  end.

(** Emit volume key to Consumer Control device. *)
Definition gigabyte_kbd_emit_volume (k : key) (pressed : Z) (s : state) : state :=
  let dev :=
    match gigabyte_kbd_consumer_dev s with
    | Some c => Some c
    | None => gigabyte_kbd_input_dev s
    end in
  match dev with
  | None => s
  | Some dev => input_sync dev (input_report_key dev k pressed s)
  end.

(** ** The raw event handler *)

(** The result is the value returned to the HID core, the report buffer as
    the handler leaves it, and the state. *)
Definition gigabyte_kbd_raw_event (report_id : Z) (rd : list Z) (size : Z) (s : state)
  : outcome (Z * list Z * state) :=
  if negb (report_id =? 4) || negb (size =? 4) then Done (0, rd, s)
  else
    a ← load rd 0; b ← load rd 1; c ← load rd 2; d ← load rd 3;
    let hidraw := u32 (make_u32 a b c d) in
    if hidraw =? HIDRAW_FN_ESC then
      Done (1, rd, gigabyte_kbd_emit_key (gigabyte_kbd_input_dev s) KEY_PROG2 s)
    else if hidraw =? HIDRAW_FN_F2 then
      Done (1, rd, gigabyte_kbd_emit_key (gigabyte_kbd_input_dev s) KEY_WLAN s)
    else if hidraw =? HIDRAW_FN_F3 then
      off ← gigabyte_kbd_is_backlight_off s;
      if off : bool then Done (0, rd, s)
      else
        rd ← store rd 0 0x03; rd ← store rd 1 0x70; rd ← store rd 2 0x00;
        let s := hid_report_raw_event rd 4 s in
        rd ← store rd 0 0x03; rd ← store rd 1 0x00; rd ← store rd 2 0x00;
        Done (1, rd, s)
    else if hidraw =? HIDRAW_FN_F4 then
      off ← gigabyte_kbd_is_backlight_off s;
      if off : bool then Done (0, rd, s)
      else
        rd ← store rd 0 0x03; rd ← store rd 1 0x6f; rd ← store rd 2 0x00;
        let s := hid_report_raw_event rd 4 s in
        rd ← store rd 0 0x03; rd ← store rd 1 0x00; rd ← store rd 2 0x00;
        Done (1, rd, s)
    else if hidraw =? HIDRAW_FN_F5 then
      Done (1, rd, gigabyte_kbd_emit_key (gigabyte_kbd_input_dev s) KEY_SWITCHVIDEOMODE s)
    else if hidraw =? HIDRAW_FN_F6 then
      Done (0, rd,
            match gigabyte_kbd_backlight_device s with
            | Some _ => schedule_work gigabyte_kbd_backlight_toggle_work s
            | None => s
            end)
    else if hidraw =? HIDRAW_FN_F8_PRESS then
      Done (1, rd, gigabyte_kbd_emit_volume KEY_VOLUMEDOWN 1 s)
    else if hidraw =? HIDRAW_FN_F8_RELEASE then
      Done (1, rd, gigabyte_kbd_emit_volume KEY_VOLUMEDOWN 0 s)
    else if hidraw =? HIDRAW_FN_F9_PRESS then
      Done (1, rd, gigabyte_kbd_emit_volume KEY_VOLUMEUP 1 s)
    else if hidraw =? HIDRAW_FN_F9_RELEASE then
      Done (1, rd, gigabyte_kbd_emit_volume KEY_VOLUMEUP 0 s)
    else if hidraw =? HIDRAW_FN_F10 then
      Done (0, rd,
            match gigabyte_kbd_touchpad_device s with
            | Some _ => schedule_work gigabyte_kbd_touchpad_toggle_driver_work s
            | None => s
            end)
    else if hidraw =? HIDRAW_FN_F11 then
      Done (1, rd, gigabyte_kbd_emit_key (gigabyte_kbd_input_dev s) KEY_RFKILL s)
    else if (hidraw =? HIDRAW_FN_F12) || (hidraw =? HIDRAW_FN_F12_ALT) then
      Done (1, rd, gigabyte_kbd_emit_key (gigabyte_kbd_input_dev s) KEY_PROG1 s)
    else Done (0, rd, s).

(** ** Touchpad discovery *)

(** Touchpad device identifiers for I2C bus matching. *)
Record gigabyte_kbd_touchpad_device_identifier : Type :=
  { hid : string; bid : string; instance_no : Z }.

Definition gigabyte_kbd_touchpad_device_identifiers
  : list gigabyte_kbd_touchpad_device_identifier :=
  [ {| hid := "PNP0C50"; bid := "TPD0"; instance_no := 1 |};
    {| hid := "ELAN0A02"; bid := "TPD0"; instance_no := 0 |};
    {| hid := "ELAN0A03"; bid := "TPD0"; instance_no := 1 |};
    {| hid := "ELAN0A04"; bid := "TPD0"; instance_no := 0 |} ].

Definition gigabyte_kbd_match_touchpad_device (dev : device) : Z :=
  match ACPI_COMPANION dev with
  | None => 0
  | Some acpi =>
      if existsb
           (fun id =>
              String.eqb (hid id) (acpi_device_hid acpi)
              && String.eqb (bid id) (acpi_device_bid acpi)
              && (instance_no id =? pnp_instance_no acpi))
           gigabyte_kbd_touchpad_device_identifiers
      then 1 else 0
  end.

(** ** Setup and teardown *)

Definition ENOMEM : Z := 12.

Definition GIGABYTE_KBD_BACKLIGHT_DEVICE_NAME : string := "intel_backlight".

(** The key bits set on the Fn Keys device before it is registered. *)
Definition fn_keybit : list key :=
  [ KEY_WLAN; KEY_SWITCHVIDEOMODE; KEY_VOLUMEDOWN; KEY_VOLUMEUP; KEY_RFKILL;
    KEY_PROG1; KEY_PROG2 ].

(** [alloc] is what [input_allocate_device] returns (a fresh device or
    NULL), [reg] what [input_register_device] returns. *)
Definition gigabyte_kbd_setup_input_dev (alloc : option input_dev) (reg : Z) (s : state)
  : Z * state :=
  match gigabyte_kbd_input_dev s with
  | Some _ => (0, set_refcount (int_wrap (gigabyte_kbd_refcount s + 1)) s)
  | None =>
      match alloc with
      | None => (- ENOMEM, s)
      | Some input =>
          let s := emit (InputRegisterDevice input fn_keybit reg) s in
          if negb (reg =? 0) then (reg, emit (InputFreeDevice input) s)
          else (0, set_refcount 1 (set_input_dev (Some input) s))
      end
  end.

Definition gigabyte_kbd_remove (s : state) : state :=
  let s := emit HidHwStop s in
  if 0 <? gigabyte_kbd_refcount s then
    let s := set_refcount (int_wrap (gigabyte_kbd_refcount s - 1)) s in
    if gigabyte_kbd_refcount s =? 0 then
      match gigabyte_kbd_input_dev s with
      | Some input => set_input_dev None (emit (InputUnregisterDevice input) s)
      | None => s
      end
    else s
  else s.

(** [strstr(haystack, needle) != NULL] *)
Fixpoint strstr (haystack needle : string) : bool :=
  String.prefix needle haystack
  || match haystack with
     | EmptyString => false
     | String _ rest => strstr rest needle
     end.

(** What the kernel answers during one [gigabyte_kbd_probe]. *)
Record probe_env : Type :=
  { devm_kzalloc_ok : bool;
    hid_parse_ret : Z;
    hid_hw_start_ret : Z;
    (** [hdev->inputs]: each input device with its name, if it has one *)
    hdev_inputs : list (input_dev * option string);
    input_allocate_device_ret : option input_dev;
    input_register_device_ret : Z;
    (** the backlight class devices, by name *)
    backlight_class : list (string * backlight_device);
    (** the devices on the I2C bus *)
    i2c_bus : list device }.

Definition backlight_device_get_by_name (env : probe_env) (name : string)
  : option backlight_device :=
  snd <$> List.find (fun nb => String.eqb (fst nb) name) (backlight_class env).

Definition bus_find_device (env : probe_env) (match_fn : device -> Z) : option device :=
  List.find (fun dev => negb (match_fn dev =? 0)) (i2c_bus env).

Definition is_consumer_control (hi : input_dev * option string) : bool :=
  match snd hi with
  | Some name => strstr name "Consumer Control"
  | None => false
  end.

Definition gigabyte_kbd_probe (env : probe_env) (s : state) : Z * state :=
  if negb (devm_kzalloc_ok env) then (- ENOMEM, s)
  else if negb (hid_parse_ret env =? 0) then (hid_parse_ret env, s)
  else if negb (hid_hw_start_ret env =? 0) then (hid_hw_start_ret env, s)
  else
    (* Find Consumer Control device for volume key injection *)
    let s :=
      match gigabyte_kbd_consumer_dev s with
      | Some _ => s
      | None =>
          match List.find is_consumer_control (hdev_inputs env) with
          | Some hi =>
              emit (SetKeybit (fst hi) KEY_VOLUMEUP)
                (emit (SetKeybit (fst hi) KEY_VOLUMEDOWN)
                   (set_consumer_dev (Some (fst hi)) s))
          | None => s
          end
      end in
    (* Create input device for Fn key events; a failure is only warned about *)
    let s :=
      snd (gigabyte_kbd_setup_input_dev (input_allocate_device_ret env)
             (input_register_device_ret env) s) in
    (* Find backlight device *)
    let s :=
      set_backlight_device
        (backlight_device_get_by_name env GIGABYTE_KBD_BACKLIGHT_DEVICE_NAME) s in
    (* Find touchpad device *)
    let tp := bus_find_device env gigabyte_kbd_match_touchpad_device in
    let s := set_touchpad_device tp s in
    let s :=
      match tp with
      | Some dev => set_touchpad_driver (driver dev) s
      | None => s
      end in
    (0, s).

(** ** The worker of the system work queue *)

Definition work_func (w : work) (err : Z) (s : state) : outcome state :=
  match w with
  | gigabyte_kbd_backlight_toggle_work => gigabyte_kbd_backlight_toggle s
  | gigabyte_kbd_touchpad_toggle_driver_work => gigabyte_kbd_touchpad_toggle_driver err s
  end.

(** The worker takes the oldest pending item, clears its pending bit and
    then runs its function. *)
Definition process_one_work (err : Z) (s : state) : outcome state :=
  match wq_pending s with
  | [] => Done s
  | w :: rest => work_func w err (emit (RunWork w) (set_wq_pending rest s))
  end.

(** ** Executions *)

(** The states the driver can be in: from module load, through any
    interleaving of its entry points and of the worker. *)
Inductive reachable : state -> Prop :=
  | reachable_init : reachable init
  | reachable_probe env s :
      reachable s -> reachable (snd (gigabyte_kbd_probe env s))
  | reachable_remove s :
      reachable s -> reachable (gigabyte_kbd_remove s)
  | reachable_raw_event report_id rd size s ret rd' s' :
      reachable s ->
      gigabyte_kbd_raw_event report_id rd size s = Done (ret, rd', s') ->
      reachable s'
  | reachable_work err s s' :
      reachable s -> process_one_work err s = Done s' -> reachable s'.

(** Attaching and detaching the shared input device. *)
Inductive sink_op : Type :=
  | Attach (alloc : option input_dev) (reg : Z)
  | Detach.

Definition sink_step (s : state) (o : sink_op) : state :=
  match o with
  | Attach alloc reg => snd (gigabyte_kbd_setup_input_dev alloc reg s)
  | Detach => gigabyte_kbd_remove s
  end.

Definition sink_run (ops : list sink_op) (s : state) : state :=
  fold_left sink_step ops s.

(** The values the attach calls of a run return, in order. *)
Fixpoint attach_rets (ops : list sink_op) (s : state) : list Z :=
  match ops with
  | [] => []
  | Attach alloc reg :: ops =>
      fst (gigabyte_kbd_setup_input_dev alloc reg s)
      :: attach_rets ops (sink_step s (Attach alloc reg))
  | Detach :: ops => attach_rets ops (sink_step s Detach)
  end.

(** The number of times the log records a given call. *)
Definition occurrences (e : event) (log : list event) : nat :=
  length (filter (fun x => x = e) log).

(** The byte positions whose value differs from the original in at least
    one of the successive contents of the buffer. *)
Definition rewritten_fields (orig : list Z) (bufs : list (list Z)) : list nat :=
  filter (fun i => Exists (fun buf => orig !! i ≠ buf !! i) bufs)
    (seq 0 (length orig)).

(** [emits es s]: the kernel calls [es] are made in order. *)
Definition emits (es : list event) (s : state) : state :=
  mkState (gigabyte_kbd_input_dev s) (gigabyte_kbd_consumer_dev s)
    (gigabyte_kbd_refcount s) (gigabyte_kbd_backlight_device s)
    (gigabyte_kbd_touchpad_driver s) (gigabyte_kbd_touchpad_device s)
    (wq_pending s) (klog s ++ es).

(** The volume codes with the key and the level each of them reports. *)
Definition volume_codes : list (Z * key * Z) :=
  [ (HIDRAW_FN_F8_PRESS, KEY_VOLUMEDOWN, 1);
    (HIDRAW_FN_F8_RELEASE, KEY_VOLUMEDOWN, 0);
    (HIDRAW_FN_F9_PRESS, KEY_VOLUMEUP, 1);
    (HIDRAW_FN_F9_RELEASE, KEY_VOLUMEUP, 0) ].

(** The brightness codes with the step code each of them is replaced by. *)
Definition brightness_codes : list (Z * Z) :=
  [ (HIDRAW_FN_F3, 0x70); (HIDRAW_FN_F4, 0x6f) ].

(** [attaches envs]: one attach per entry, each with what the input core
    answers to it; [detaches n]: [n] detaches. *)
Definition attaches (envs : list (option input_dev * Z)) : list sink_op :=
  map (fun e => Attach (fst e) (snd e)) envs.

Definition detaches (n : nat) : list sink_op := repeat Detach n.

(** The device is unregistered with a zero count, or registered with a
    count between 1 and [n]. *)
Definition sink_within (n : Z) (s : state) : Prop :=
  (gigabyte_kbd_input_dev s = None /\ gigabyte_kbd_refcount s = 0)
  \/ (exists d, gigabyte_kbd_input_dev s = Some d /\ 1 <= gigabyte_kbd_refcount s <= n).

(** The five shapes of the state a returning handler leaves. *)
Inductive raw_event_effect (s : state) : state -> Prop :=
  | effect_none : raw_event_effect s s
  | effect_emit_key k :
      raw_event_effect s (gigabyte_kbd_emit_key (gigabyte_kbd_input_dev s) k s)
  | effect_emit_volume k pressed :
      raw_event_effect s (gigabyte_kbd_emit_volume k pressed s)
  | effect_schedule w : raw_event_effect s (schedule_work w s)
  | effect_inject rd size : raw_event_effect s (hid_report_raw_event rd size s).

(** ** Two sessions used as examples *)

Definition example_touchpad : device :=
  {| ACPI_COMPANION :=
       Some {| acpi_device_hid := "PNP0C50"; acpi_device_bid := "TPD0";
               pnp_instance_no := 1 |};
     driver := Some 9%nat |}.

(** A laptop whose panel is driven by [intel_backlight]. *)
Definition intel_env : probe_env :=
  {| devm_kzalloc_ok := true;
     hid_parse_ret := 0;
     hid_hw_start_ret := 0;
     hdev_inputs := [ (1%nat, Some "GIGABYTE Keyboard"%string);
                      (2%nat, Some "GIGABYTE Keyboard Consumer Control"%string) ];
     input_allocate_device_ret := Some 3%nat;
     input_register_device_ret := 0;
     backlight_class := [ ("intel_backlight"%string, {| props_power := FB_BLANK_UNBLANK |}) ];
     i2c_bus := [ example_touchpad ] |}.

(** A laptop whose only backlight device has another name, and without a
    touchpad the table knows. *)
Definition amdgpu_env : probe_env :=
  {| devm_kzalloc_ok := true;
     hid_parse_ret := 0;
     hid_hw_start_ret := 0;
     hdev_inputs := [ (1%nat, Some "GIGABYTE Keyboard"%string) ];
     input_allocate_device_ret := Some 3%nat;
     input_register_device_ret := 0;
     backlight_class := [ ("amdgpu_bl0"%string, {| props_power := FB_BLANK_UNBLANK |}) ];
     i2c_bus := [] |}.

Definition intel_session : state := snd (gigabyte_kbd_probe intel_env init).
Definition amdgpu_session : state := snd (gigabyte_kbd_probe amdgpu_env init).

(** The touchpad of the first session with its driver bound and no driver
    remembered yet. *)
Definition touchpad_bound : state := set_touchpad_driver None intel_session.

(** ** Further notions used by the properties *)

(** The codes answered by a key pulse, with the key each of them pulses. *)
Definition pulse_codes : list (Z * key) :=
  [ (HIDRAW_FN_ESC, KEY_PROG2); (HIDRAW_FN_F2, KEY_WLAN);
    (HIDRAW_FN_F5, KEY_SWITCHVIDEOMODE); (HIDRAW_FN_F11, KEY_RFKILL);
    (HIDRAW_FN_F12, KEY_PROG1); (HIDRAW_FN_F12_ALT, KEY_PROG1) ].

(** The worker runs the touchpad toggle once per entry of [errs], each
    entry being what the driver core would answer to an attach. *)
Fixpoint touchpad_toggle_run (errs : list Z) (s : state) : outcome state :=
  match errs with
  | [] => Done s
  | err :: errs =>
      s' ← gigabyte_kbd_touchpad_toggle_driver err s;
      touchpad_toggle_run errs s'
  end.

(** [steps s s']: the driver gets from [s] to [s'] by some interleaving of
    its entry points and of the worker. *)
Inductive steps (s : state) : state -> Prop :=
  | steps_refl : steps s s
  | steps_probe env s' :
      steps s s' -> steps s (snd (gigabyte_kbd_probe env s'))
  | steps_remove s' :
      steps s s' -> steps s (gigabyte_kbd_remove s')
  | steps_raw_event report_id rd size s' ret rd' s'' :
      steps s s' ->
      gigabyte_kbd_raw_event report_id rd size s' = Done (ret, rd', s'') ->
      steps s s''
  | steps_work err s' s'' :
      steps s s' -> process_one_work err s' = Done s'' -> steps s s''.

(** The calls that do not sleep: the only ones the raw event handler may
    make. *)
Definition is_atomic_call (e : event) : bool :=
  match e with
  | InputReportKey _ _ _ | InputSync _ | HidReportRawEvent _ | ScheduleWork _ => true
  | _ => false
  end.

Definition is_register_ok (e : event) : bool :=
  match e with
  | InputRegisterDevice _ _ err => err =? 0
  | _ => false
  end.

Definition is_register_failed (e : event) : bool :=
  match e with
  | InputRegisterDevice _ _ err => negb (err =? 0)
  | _ => false
  end.

Definition is_unregister (e : event) : bool :=
  match e with
  | InputUnregisterDevice _ => true
  | _ => false
  end.

Definition is_free (e : event) : bool :=
  match e with
  | InputFreeDevice _ => true
  | _ => false
  end.

(** The number of logged calls that satisfy [p]. *)
Definition count_calls (p : event -> bool) (log : list event) : nat :=
  length (List.filter p log).

(** The number of attaches in a run. *)
Definition count_attaches (ops : list sink_op) : nat :=
  length (List.filter (fun o => match o with Attach _ _ => true | Detach => false end) ops).

(** The touchpad can be given back the driver [drv]: it is bound to it, or
    it is unbound and [drv] is the remembered driver. *)
Definition touchpad_restorable (drv : device_driver) (s : state) : Prop :=
  exists dev,
    gigabyte_kbd_touchpad_device s = Some dev
    /\ (driver dev = Some drv
        \/ (driver dev = None /\ gigabyte_kbd_touchpad_driver s = Some drv)).

(** The driver-core calls that concern the driver [drv] only. *)
Definition is_binding_call (drv : device_driver) (e : event) : Prop :=
  e = DeviceReleaseDriver \/ exists err, e = DeviceDriverAttach drv err.

(** The calls that create or destroy an input device. *)
Definition is_sink_call (e : event) : bool :=
  is_register_ok e || is_register_failed e || is_unregister e || is_free e.

(** Every successful registration but that of the device now registered
    has been undone, and every failed one has been followed by a free. *)
Definition sink_calls_balanced (s : state) : Prop :=
  count_calls is_register_ok (klog s)
  = (count_calls is_unregister (klog s)
     + match gigabyte_kbd_input_dev s with Some _ => 1 | None => 0 end)%nat
  /\ count_calls is_register_failed (klog s) = count_calls is_free (klog s).

(** * Properties *)

(** ** Arithmetic of the report code *)

Lemma lor_low_bits (hi lo n : Z) :
  0 <= n -> 0 <= lo < 2 ^ n -> Z.lor (hi * 2 ^ n) lo = hi * 2 ^ n + lo.
Proof.
  intros Hn Hlo.
  rewrite <- (Z.add_lor_land (hi * 2 ^ n) lo).
  assert (Hland : Z.land (hi * 2 ^ n) lo = 0).
  { apply Z.bits_inj'. intros i Hi.
    rewrite Z.land_spec, Z.bits_0.
    destruct (Z.lt_ge_cases i n) as [Hlt | Hge].
    - rewrite Z.mul_pow2_bits_low by lia. reflexivity.
    - rewrite <- (Z.mod_small lo (2 ^ n)) by lia.
      rewrite Z.mod_pow2_bits_high by lia.
      apply andb_false_r. }
  rewrite Hland. lia.
Qed.

Lemma is_u8_range (b : Z) : is_u8 b = true -> 0 <= b < 256.
Proof. unfold is_u8. lia. Qed.

(** On four bytes the code is the big-endian number they spell. *)
Lemma hidraw_of_bytes (a b c d : Z) :
  is_u8 a = true -> is_u8 b = true -> is_u8 c = true -> is_u8 d = true ->
  u32 (make_u32 a b c d) = a * 2 ^ 24 + b * 2 ^ 16 + c * 2 ^ 8 + d.
Proof.
  intros Ha%is_u8_range Hb%is_u8_range Hc%is_u8_range Hd%is_u8_range.
  unfold u32, make_u32.
  rewrite !Z.shiftl_mul_pow2 by lia.
  rewrite (lor_low_bits a (b * 2 ^ 16) 24) by lia.
  replace (a * 2 ^ 24 + b * 2 ^ 16) with ((a * 2 ^ 8 + b) * 2 ^ 16) by lia.
  rewrite (lor_low_bits _ (c * 2 ^ 8) 16) by lia.
  replace ((a * 2 ^ 8 + b) * 2 ^ 16 + c * 2 ^ 8)
    with ((a * 2 ^ 16 + b * 2 ^ 8 + c) * 2 ^ 8) by lia.
  rewrite (lor_low_bits _ d 8) by lia.
  rewrite Z.mod_small by lia. lia.
Qed.

(** The bytes of a report are determined by its code. *)
Lemma bytes_of_hidraw (a b c d a' b' c' d' : Z) :
  is_u8 a = true -> is_u8 b = true -> is_u8 c = true -> is_u8 d = true ->
  is_u8 a' = true -> is_u8 b' = true -> is_u8 c' = true -> is_u8 d' = true ->
  u32 (make_u32 a b c d) = u32 (make_u32 a' b' c' d') ->
  a = a' /\ b = b' /\ c = c' /\ d = d'.
Proof.
  intros Ha Hb Hc Hd Ha' Hb' Hc' Hd'.
  rewrite !hidraw_of_bytes by assumption.
  apply is_u8_range in Ha, Hb, Hc, Hd, Ha', Hb', Hc', Hd'.
  lia.
Qed.

(** ** Dispatch of one report *)

Lemma emit_emits (e : event) (es : list event) (s : state) :
  emit e (emits es s) = emits (es ++ [e]) s.
Proof. unfold emit, emits. cbn. rewrite <- app_assoc. reflexivity. Qed.

Lemma emit_as_emits (e : event) (s : state) : emit e s = emits [e] s.
Proof. reflexivity. Qed.

Lemma emit_twice (e1 e2 : event) (s : state) :
  emit e2 (emit e1 s) = emits [e1; e2] s.
Proof. rewrite (emit_as_emits e1), emit_emits. reflexivity. Qed.

(** Unfolds the handler on a four-byte report whose code [H] gives. *)
Ltac dispatch H :=
  unfold gigabyte_kbd_raw_event, load;
  cbn -[u32 make_u32 gigabyte_kbd_emit_key gigabyte_kbd_emit_volume
        schedule_work gigabyte_kbd_is_backlight_off hid_report_raw_event];
  rewrite H;
  cbn -[u32 make_u32 gigabyte_kbd_emit_key gigabyte_kbd_emit_volume
        schedule_work gigabyte_kbd_is_backlight_off hid_report_raw_event].

Lemma raw_event_not_eligible (report_id size : Z) (rd : list Z) (s : state) :
  report_id <> 4 \/ size <> 4 ->
  gigabyte_kbd_raw_event report_id rd size s = Done (0, rd, s).
Proof.
  intros H. unfold gigabyte_kbd_raw_event.
  destruct (Z.eqb_spec report_id 4), (Z.eqb_spec size 4); cbn; try reflexivity.
  lia.
Qed.

Lemma raw_event_default (a b c d : Z) (s : state) :
  ~ In (u32 (make_u32 a b c d)) fn_catalog ->
  gigabyte_kbd_raw_event 4 [a; b; c; d] 4 s = Done (0, [a; b; c; d], s).
Proof.
  intros H. unfold gigabyte_kbd_raw_event, load.
  cbn -[u32 make_u32].
  set (hidraw := u32 (make_u32 a b c d)) in *.
  repeat match goal with
         | |- context [hidraw =? ?k] =>
             destruct (Z.eqb_spec hidraw k) as [Heq | _];
             [ exfalso; apply H; rewrite Heq; cbn; tauto | ]
         end.
  reflexivity.
Qed.

(** C6. A report whose id is not 4 or whose size is not 4, and an eligible
    report whose code has no case in the switch, is returned unhandled: the
    handler returns 0, leaves the report bytes as they are and leaves the
    state as it is, so no key is reported and no work is scheduled. *)
Theorem unrecognized_report_unhandled :
  forall (report_id size : Z) (rd : list Z) (s : state),
    (report_id <> 4 \/ size <> 4 ->
     gigabyte_kbd_raw_event report_id rd size s = Done (0, rd, s))
    /\ (forall a b c d : Z,
          report_id = 4 -> size = 4 -> rd = [a; b; c; d] ->
          ~ In (u32 (make_u32 a b c d)) fn_catalog ->
          gigabyte_kbd_raw_event report_id rd size s = Done (0, rd, s)).
Proof.
  intros report_id size rd s. split.
  - apply raw_event_not_eligible.
  - intros a b c d -> -> -> H. apply raw_event_default. exact H.
Qed.

Lemma unrecognized_report_unhandled_witness :
  gigabyte_kbd_raw_event 3 [4; 0; 0; 0x7C] 4 init = Done (0, [4; 0; 0; 0x7C], init)
  /\ gigabyte_kbd_raw_event 4 [4; 0; 0; 0x7C; 0] 5 init
     = Done (0, [4; 0; 0; 0x7C; 0], init)
  /\ gigabyte_kbd_raw_event 4 [4; 0; 0; 0x99] 4 init = Done (0, [4; 0; 0; 0x99], init).
Proof.
  split; [| split].
  - apply (proj1 (unrecognized_report_unhandled 3 4 [4; 0; 0; 0x7C] init)).
    left. lia.
  - apply (proj1 (unrecognized_report_unhandled 4 5 [4; 0; 0; 0x7C; 0] init)).
    right. lia.
  - apply (proj2 (unrecognized_report_unhandled 4 4 [4; 0; 0; 0x99] init)
             4 0 0 0x99); try reflexivity.
    vm_compute. intuition discriminate.
Defined.

Lemma emit_volume_routing (k : key) (pressed : Z) (s : state) :
  (forall consumer,
      gigabyte_kbd_consumer_dev s = Some consumer ->
      gigabyte_kbd_emit_volume k pressed s
      = emits [InputReportKey consumer k pressed; InputSync consumer] s)
  /\ (forall input,
        gigabyte_kbd_consumer_dev s = None ->
        gigabyte_kbd_input_dev s = Some input ->
        gigabyte_kbd_emit_volume k pressed s
        = emits [InputReportKey input k pressed; InputSync input] s)
  /\ (gigabyte_kbd_consumer_dev s = None ->
      gigabyte_kbd_input_dev s = None ->
      gigabyte_kbd_emit_volume k pressed s = s).
Proof.
  unfold gigabyte_kbd_emit_volume, input_sync, input_report_key.
  repeat split.
  - intros consumer ->. apply emit_twice.
  - intros input -> ->. apply emit_twice.
  - intros -> ->. reflexivity.
Qed.

(** C7. Each of the four volume codes makes the handler call
    [gigabyte_kbd_emit_volume] once, with VOLUMEDOWN for F8 and VOLUMEUP for
    F9 and with level 1 for a press and 0 for a release, and return 1.  The
    call reports the key and synchronises on the Consumer Control device
    when there is one, on the Fn Keys device otherwise; with neither device
    it reports nothing. *)
Theorem volume_codes_emit_level :
  forall (a b c d code pressed : Z) (k : key) (s : state),
    In (code, k, pressed) volume_codes ->
    u32 (make_u32 a b c d) = code ->
    gigabyte_kbd_raw_event 4 [a; b; c; d] 4 s
    = Done (1, [a; b; c; d], gigabyte_kbd_emit_volume k pressed s)
    /\ (forall consumer,
          gigabyte_kbd_consumer_dev s = Some consumer ->
          gigabyte_kbd_emit_volume k pressed s
          = emits [InputReportKey consumer k pressed; InputSync consumer] s)
    /\ (forall input,
          gigabyte_kbd_consumer_dev s = None ->
          gigabyte_kbd_input_dev s = Some input ->
          gigabyte_kbd_emit_volume k pressed s
          = emits [InputReportKey input k pressed; InputSync input] s)
    /\ (gigabyte_kbd_consumer_dev s = None ->
        gigabyte_kbd_input_dev s = None ->
        gigabyte_kbd_emit_volume k pressed s = s).
Proof.
  intros a b c d code pressed k s Hin Hcode.
  split; [| apply emit_volume_routing].
  cbn in Hin.
  destruct Hin as [Heq | [Heq | [Heq | [Heq | []]]]];
    injection Heq as <- <- <-; dispatch Hcode; reflexivity.
Qed.

Lemma volume_codes_emit_level_witness :
  gigabyte_kbd_raw_event 4 [4; 0; 1; 0x86] 4 intel_session
  = Done (1, [4; 0; 1; 0x86], gigabyte_kbd_emit_volume KEY_VOLUMEDOWN 1 intel_session)
  /\ gigabyte_kbd_emit_volume KEY_VOLUMEDOWN 1 intel_session
     = emits [InputReportKey 2%nat KEY_VOLUMEDOWN 1; InputSync 2%nat] intel_session.
Proof.
  assert (Hin : In (HIDRAW_FN_F8_PRESS, KEY_VOLUMEDOWN, 1) volume_codes)
    by (simpl; tauto).
  assert (Hcode : u32 (make_u32 4 0 1 0x86) = HIDRAW_FN_F8_PRESS)
    by reflexivity.
  pose proof (volume_codes_emit_level 4 0 1 0x86 HIDRAW_FN_F8_PRESS 1
                KEY_VOLUMEDOWN intel_session Hin Hcode) as [Hret [Hconsumer _]].
  split; [exact Hret |].
  apply Hconsumer. reflexivity.
Defined.

(** C8. The backlight-toggle code and the touchpad-toggle code are always
    passed through: the handler returns 0 and leaves the report bytes as
    they are.  It calls [schedule_work] on the matching work item, once,
    when the matching device pointer is set, and changes nothing when the
    pointer is NULL. *)
Theorem toggle_codes_pass_through :
  forall (a b c d : Z) (s : state),
    (u32 (make_u32 a b c d) = HIDRAW_FN_F6 ->
     exists s',
       gigabyte_kbd_raw_event 4 [a; b; c; d] 4 s = Done (0, [a; b; c; d], s')
       /\ (forall bd,
             gigabyte_kbd_backlight_device s = Some bd ->
             s' = schedule_work gigabyte_kbd_backlight_toggle_work s
             /\ klog s' = klog s ++ [ScheduleWork gigabyte_kbd_backlight_toggle_work])
       /\ (gigabyte_kbd_backlight_device s = None -> s' = s))
    /\ (u32 (make_u32 a b c d) = HIDRAW_FN_F10 ->
        exists s',
          gigabyte_kbd_raw_event 4 [a; b; c; d] 4 s = Done (0, [a; b; c; d], s')
          /\ (forall dev,
                gigabyte_kbd_touchpad_device s = Some dev ->
                s' = schedule_work gigabyte_kbd_touchpad_toggle_driver_work s
                /\ klog s'
                   = klog s ++ [ScheduleWork gigabyte_kbd_touchpad_toggle_driver_work])
          /\ (gigabyte_kbd_touchpad_device s = None -> s' = s)).
Proof.
  intros a b c d s. split; intros Hcode; dispatch Hcode.
  - eexists. split; [reflexivity |]. split.
    + intros bd ->. split; [reflexivity |].
      unfold schedule_work. case_decide; reflexivity.
    + intros ->. reflexivity.
  - eexists. split; [reflexivity |]. split.
    + intros dev ->. split; [reflexivity |].
      unfold schedule_work. case_decide; reflexivity.
    + intros ->. reflexivity.
Qed.

Lemma toggle_codes_pass_through_witness :
  (exists s',
      gigabyte_kbd_raw_event 4 [4; 0; 0; 0x80] 4 intel_session
      = Done (0, [4; 0; 0; 0x80], s')
      /\ klog s'
         = klog intel_session ++ [ScheduleWork gigabyte_kbd_backlight_toggle_work])
  /\ gigabyte_kbd_raw_event 4 [4; 0; 0; 0x81] 4 amdgpu_session
     = Done (0, [4; 0; 0; 0x81], amdgpu_session).
Proof.
  split.
  - destruct (proj1 (toggle_codes_pass_through 4 0 0 0x80 intel_session))
      as [s' [Hret [Hpresent _]]]; [reflexivity |].
    exists s'. split; [exact Hret |].
    apply (Hpresent {| props_power := FB_BLANK_UNBLANK |}). reflexivity.
  - destruct (proj2 (toggle_codes_pass_through 4 0 0 0x81 amdgpu_session))
      as [s' [Hret [_ Habsent]]]; [reflexivity |].
    rewrite Hret, Habsent; reflexivity.
Defined.

(** C9. [gigabyte_kbd_emit_key] returns to its caller in every case: on a
    registered device it reports the key down, synchronises, reports the
    key up and synchronises again; without a device it does nothing.  An
    eligible report with the Fn+F2 code, with the Fn Keys device registered,
    is handled (1 is returned) by one such pulse of KEY_WLAN. *)
Theorem emit_key_pulse :
  (forall (input : input_dev) (k : key) (s : state),
      gigabyte_kbd_emit_key (Some input) k s
      = emits [InputReportKey input k 1; InputSync input;
               InputReportKey input k 0; InputSync input] s)
  /\ (forall (k : key) (s : state), gigabyte_kbd_emit_key None k s = s)
  /\ (forall (a b c d : Z) (s : state) (input : input_dev),
        u32 (make_u32 a b c d) = HIDRAW_FN_F2 ->
        gigabyte_kbd_input_dev s = Some input ->
        gigabyte_kbd_raw_event 4 [a; b; c; d] 4 s
        = Done (1, [a; b; c; d], gigabyte_kbd_emit_key (Some input) KEY_WLAN s)).
Proof.
  split; [| split].
  - intros input k s. unfold gigabyte_kbd_emit_key, input_sync, input_report_key.
    rewrite (emit_as_emits (InputReportKey input k 1) s), !emit_emits. reflexivity.
  - reflexivity.
  - intros a b c d s input Hcode Hdev. dispatch Hcode. rewrite Hdev. reflexivity.
Qed.

Lemma emit_key_pulse_witness :
  gigabyte_kbd_raw_event 4 [4; 0; 0; 0x7C] 4 intel_session
  = Done (1, [4; 0; 0; 0x7C], gigabyte_kbd_emit_key (Some 3%nat) KEY_WLAN intel_session).
Proof.
  apply (proj2 (proj2 emit_key_pulse) 4 0 0 0x7C intel_session 3%nat);
    reflexivity.
Defined.

(** C1. An eligible report with a brightness-step code, with a backlight
    device whose power state is read: when the backlight is off the handler
    returns 0 and leaves the bytes as they are; otherwise it writes the step
    command 03, step, 00 over the first three bytes (step 0x70 for F3, 0x6f
    for F4), hands these four bytes to the HID core, resets the first three
    bytes to 03 00 00 and returns 1.  The bytes whose value the handler
    changed with respect to the original report are bytes 0 and 1: two
    fields. *)
Theorem brightness_step_rewrite :
  forall (a b c d code step : Z) (s : state) (bd : backlight_device),
    is_u8 a = true -> is_u8 b = true -> is_u8 c = true -> is_u8 d = true ->
    In (code, step) brightness_codes ->
    u32 (make_u32 a b c d) = code ->
    gigabyte_kbd_backlight_device s = Some bd ->
    (props_power bd = FB_BLANK_POWERDOWN ->
     gigabyte_kbd_raw_event 4 [a; b; c; d] 4 s = Done (0, [a; b; c; d], s))
    /\ (props_power bd <> FB_BLANK_POWERDOWN ->
        gigabyte_kbd_raw_event 4 [a; b; c; d] 4 s
        = Done (1, [0x03; 0x00; 0x00; d],
                emit (HidReportRawEvent [0x03; step; 0x00; d]) s)
        /\ rewritten_fields [a; b; c; d]
             [ [0x03; step; 0x00; d]; [0x03; 0x00; 0x00; d] ]
           = [0; 1]%nat
        /\ length (rewritten_fields [a; b; c; d]
                     [ [0x03; step; 0x00; d]; [0x03; 0x00; 0x00; d] ])
           = 2%nat).
Proof.
  intros a b c d code step s bd Ha Hb Hc Hd Hin Hcode Hbl.
  pose proof Hcode as Hbytes.
  rewrite hidraw_of_bytes in Hbytes by assumption.
  apply is_u8_range in Ha, Hb, Hc, Hd.
  cbn in Hin.
  destruct Hin as [Heq | [Heq | []]]; injection Heq as <- <-;
    (assert (a = 4 /\ b = 0 /\ c = 0) as (-> & -> & ->)
      by (unfold HIDRAW_FN_F3, HIDRAW_FN_F4 in Hbytes; lia));
    (assert (d = 0x7D \/ d = 0x7E) as Hd'
      by (unfold HIDRAW_FN_F3, HIDRAW_FN_F4 in Hbytes; lia));
    dispatch Hcode; unfold gigabyte_kbd_is_backlight_off; rewrite Hbl; cbn;
    (split; [ intros ->; reflexivity | intros Hon ]);
    destruct (Z.eqb_spec (props_power bd) FB_BLANK_POWERDOWN); try contradiction;
    (split; [ reflexivity | ]);
    destruct Hd' as [-> | ->]; split; reflexivity.
Qed.

Lemma brightness_step_rewrite_witness :
  gigabyte_kbd_raw_event 4 [4; 0; 0; 0x7D] 4 intel_session
  = Done (1, [0x03; 0x00; 0x00; 0x7D],
          emit (HidReportRawEvent [0x03; 0x70; 0x00; 0x7D]) intel_session)
  /\ gigabyte_kbd_raw_event 4 [4; 0; 0; 0x7E] 4
       (set_backlight_device (Some {| props_power := FB_BLANK_POWERDOWN |}) intel_session)
     = Done (0, [4; 0; 0; 0x7E],
             set_backlight_device (Some {| props_power := FB_BLANK_POWERDOWN |})
               intel_session).
Proof.
  split.
  - apply (proj2 (brightness_step_rewrite 4 0 0 0x7D HIDRAW_FN_F3 0x70
                    intel_session {| props_power := FB_BLANK_UNBLANK |}
                    eq_refl eq_refl eq_refl eq_refl
                    (or_introl eq_refl) eq_refl eq_refl)).
    vm_compute. discriminate.
  - apply (proj1 (brightness_step_rewrite 4 0 0 0x7E HIDRAW_FN_F4 0x6f
                    (set_backlight_device
                       (Some {| props_power := FB_BLANK_POWERDOWN |}) intel_session)
                    {| props_power := FB_BLANK_POWERDOWN |}
                    eq_refl eq_refl eq_refl eq_refl
                    (or_intror (or_introl eq_refl)) eq_refl eq_refl)).
    reflexivity.
Defined.

(** C2 (the code departs from the claim).  On a session whose backlight
    lookup found nothing, the backlight-toggle code is passed through with
    no effect, but a brightness-step code makes
    [gigabyte_kbd_is_backlight_off] read [props.power] through the NULL
    pointer: the call does not return. *)
Theorem brightness_step_without_backlight :
  gigabyte_kbd_backlight_device amdgpu_session = None
  /\ gigabyte_kbd_raw_event 4 [4; 0; 0; 0x80] 4 amdgpu_session
     = Done (0, [4; 0; 0; 0x80], amdgpu_session)
  /\ gigabyte_kbd_raw_event 4 [4; 0; 0; 0x7D] 4 amdgpu_session = Oops NullDeref
  /\ gigabyte_kbd_raw_event 4 [4; 0; 0; 0x7E] 4 amdgpu_session = Oops NullDeref.
Proof. repeat split. Qed.

(** ** The touchpad toggle *)

(** C3, as it is stated, fails: after the second toggle has bound the
    driver again, the remembered-driver static still holds it. *)
Lemma remembered_driver_not_cleared :
  exists s1 s2,
    gigabyte_kbd_touchpad_driver touchpad_bound = None
    /\ gigabyte_kbd_touchpad_toggle_driver 0 touchpad_bound = Done s1
    /\ gigabyte_kbd_touchpad_toggle_driver 0 s1 = Done s2
    /\ driver <$> gigabyte_kbd_touchpad_device s2 = Some (Some 9%nat)
    /\ gigabyte_kbd_touchpad_driver s2 <> None.
Proof.
  eexists. eexists.
  split; [reflexivity |].
  split; [reflexivity |].
  split; [reflexivity |].
  split; [reflexivity |].
  vm_compute. discriminate.
Qed.

(** C3, amended.  With a driver bound to the touchpad and none remembered,
    one toggle releases the driver and stores exactly that driver in the
    remembered-driver static; a second toggle, the device still unbound,
    attaches exactly the remembered driver and, when the attachment
    succeeds, the device is bound to it again.  The remembered-driver static
    is not cleared: it still holds that driver. *)
Theorem touchpad_toggle_twice :
  forall (s : state) (dev : device) (drv : device_driver) (err : Z),
    gigabyte_kbd_touchpad_device s = Some dev ->
    driver dev = Some drv ->
    gigabyte_kbd_touchpad_driver s = None ->
    exists s1 s2,
      gigabyte_kbd_touchpad_toggle_driver err s = Done s1
      /\ driver <$> gigabyte_kbd_touchpad_device s1 = Some None
      /\ gigabyte_kbd_touchpad_driver s1 = Some drv
      /\ klog s1 = klog s ++ [DeviceReleaseDriver]
      /\ gigabyte_kbd_touchpad_toggle_driver 0 s1 = Done s2
      /\ klog s2 = klog s1 ++ [DeviceDriverAttach drv 0]
      /\ driver <$> gigabyte_kbd_touchpad_device s2 = Some (Some drv)
      /\ gigabyte_kbd_touchpad_driver s2 = Some drv.
Proof.
  intros s dev drv err Hdev Hdrv Hmem.
  unfold gigabyte_kbd_touchpad_toggle_driver at 1.
  rewrite Hdev, Hdrv.
  unfold device_release_driver. cbn. rewrite Hdev.
  eexists. eexists.
  split; [reflexivity |].
  repeat split.
Qed.

Lemma touchpad_toggle_twice_witness :
  exists s1 s2,
    gigabyte_kbd_touchpad_toggle_driver 0 touchpad_bound = Done s1
    /\ gigabyte_kbd_touchpad_driver s1 = Some 9%nat
    /\ gigabyte_kbd_touchpad_toggle_driver 0 s1 = Done s2
    /\ driver <$> gigabyte_kbd_touchpad_device s2 = Some (Some 9%nat)
    /\ gigabyte_kbd_touchpad_driver s2 = Some 9%nat.
Proof.
  destruct (touchpad_toggle_twice touchpad_bound example_touchpad 9%nat 0
              eq_refl eq_refl eq_refl)
    as (s1 & s2 & H1 & _ & Hmem1 & _ & H2 & _ & Hdrv2 & Hmem2).
  exists s1, s2. repeat split; assumption.
Defined.

(** ** What one call may change *)

Lemma raw_event_effects report_id rd size s ret rd' s' :
  gigabyte_kbd_raw_event report_id rd size s = Done (ret, rd', s') ->
  raw_event_effect s s'.
Proof.
  unfold gigabyte_kbd_raw_event, load, store, gigabyte_kbd_is_backlight_off.
  unfold mbind, outcome_bind.
  intros H.
  repeat match type of H with
         | (if ?b then _ else _) = _ => destruct b
         | match ?x with _ => _ end = _ => destruct x
         end;
    try discriminate; injection H as <- <- <-;
    repeat case_match; constructor.
Qed.

Lemma raw_event_sink report_id rd size s ret rd' s' :
  gigabyte_kbd_raw_event report_id rd size s = Done (ret, rd', s') ->
  gigabyte_kbd_input_dev s' = gigabyte_kbd_input_dev s
  /\ gigabyte_kbd_refcount s' = gigabyte_kbd_refcount s.
Proof.
  intros H. apply raw_event_effects in H.
  destruct H; unfold gigabyte_kbd_emit_key, gigabyte_kbd_emit_volume, schedule_work;
    repeat case_match; split; cbn; congruence.
Qed.

Lemma schedule_work_NoDup w s :
  NoDup (wq_pending s) -> NoDup (wq_pending (schedule_work w s)).
Proof.
  intros H. unfold schedule_work. case_decide as Hin; [exact H |].
  cbn in *. apply NoDup_app. repeat split.
  - exact H.
  - intros x Hx Hx'. apply list_elem_of_singleton in Hx' as ->. contradiction.
  - apply NoDup_singleton.
Qed.

Lemma raw_event_NoDup report_id rd size s ret rd' s' :
  gigabyte_kbd_raw_event report_id rd size s = Done (ret, rd', s') ->
  NoDup (wq_pending s) -> NoDup (wq_pending s').
Proof.
  intros H Hnd. apply raw_event_effects in H.
  destruct H; try (apply schedule_work_NoDup; exact Hnd);
    unfold gigabyte_kbd_emit_key, gigabyte_kbd_emit_volume;
    repeat case_match; exact Hnd.
Qed.

Lemma work_func_frame w err s s' :
  work_func w err s = Done s' ->
  gigabyte_kbd_input_dev s' = gigabyte_kbd_input_dev s
  /\ gigabyte_kbd_refcount s' = gigabyte_kbd_refcount s
  /\ wq_pending s' = wq_pending s.
Proof.
  unfold work_func, gigabyte_kbd_backlight_toggle, gigabyte_kbd_is_backlight_off,
    gigabyte_kbd_touchpad_toggle_driver, backlight_enable, backlight_disable,
    device_release_driver, device_driver_attach, mbind, outcome_bind.
  intros H.
  repeat case_match; cbn in *; simplify_eq; cbn; repeat split.
Qed.

Lemma process_one_work_frame err s s' :
  process_one_work err s = Done s' ->
  gigabyte_kbd_input_dev s' = gigabyte_kbd_input_dev s
  /\ gigabyte_kbd_refcount s' = gigabyte_kbd_refcount s
  /\ wq_pending s' = tail (wq_pending s).
Proof.
  unfold process_one_work. intros H.
  destruct (wq_pending s) as [| w rest] eqn:Hq.
  - injection H as <-. rewrite Hq. repeat split.
  - apply work_func_frame in H as (-> & -> & ->). repeat split.
Qed.

Lemma setup_input_dev_pending alloc reg s :
  wq_pending (snd (gigabyte_kbd_setup_input_dev alloc reg s)) = wq_pending s.
Proof. unfold gigabyte_kbd_setup_input_dev. repeat case_match; reflexivity. Qed.

Lemma probe_pending env s :
  wq_pending (snd (gigabyte_kbd_probe env s)) = wq_pending s.
Proof.
  unfold gigabyte_kbd_probe.
  repeat case_match; cbn; rewrite ?setup_input_dev_pending; reflexivity.
Qed.

Lemma remove_pending s : wq_pending (gigabyte_kbd_remove s) = wq_pending s.
Proof. unfold gigabyte_kbd_remove. repeat case_match; reflexivity. Qed.

(** At most one instance of each work item is pending. *)
Lemma reachable_pending_NoDup s : reachable s -> NoDup (wq_pending s).
Proof.
  induction 1 as [| env s _ IH | s _ IH | report_id rd size s ret rd' s' _ IH Hev
                 | err s s' _ IH Hw].
  - apply NoDup_nil_2.
  - rewrite probe_pending. exact IH.
  - rewrite remove_pending. exact IH.
  - eapply raw_event_NoDup; eassumption.
  - apply process_one_work_frame in Hw as (_ & _ & ->).
    destruct (wq_pending s); [exact IH |]. cbn. apply NoDup_cons in IH. tauto.
Qed.

(** ** The work queue *)

Lemma schedule_work_fresh w s :
  w ∉ wq_pending s ->
  schedule_work w s = set_wq_pending (wq_pending s ++ [w]) (emit (ScheduleWork w) s).
Proof. intros H. unfold schedule_work. cbn. case_decide; [contradiction | reflexivity]. Qed.

Lemma schedule_work_pending w s :
  w ∈ wq_pending s -> schedule_work w s = emit (ScheduleWork w) s.
Proof. intros H. unfold schedule_work. cbn. case_decide; [reflexivity | contradiction]. Qed.

Lemma schedule_work_elem w s : w ∈ wq_pending (schedule_work w s).
Proof.
  unfold schedule_work. cbn. case_decide as Hin; cbn; [exact Hin |].
  apply elem_of_app. right. apply list_elem_of_singleton. reflexivity.
Qed.

Lemma schedule_work_twice w s :
  wq_pending (schedule_work w (schedule_work w s)) = wq_pending (schedule_work w s).
Proof.
  rewrite (schedule_work_pending w (schedule_work w s)) by apply schedule_work_elem.
  reflexivity.
Qed.

Lemma occurrences_app (e : event) (l1 l2 : list event) :
  occurrences e (l1 ++ l2) = (occurrences e l1 + occurrences e l2)%nat.
Proof. unfold occurrences. rewrite filter_app, length_app. reflexivity. Qed.

(** C5. In every reachable state each work item is pending at most once.
    Scheduling an item that is already pending leaves the queue as it is;
    so two dispatches of the backlight-toggle code before the worker runs
    (backlight present, queue empty before) call [schedule_work] twice and
    leave one pending item, which the worker then executes once: the log
    gains one [RunWork] and one enable or disable, and nothing is left for
    the worker to run. *)
Theorem work_coalescing :
  (forall s : state, reachable s -> NoDup (wq_pending s))
  /\ (forall (w : work) (s : state),
        wq_pending (schedule_work w (schedule_work w s))
        = wq_pending (schedule_work w s))
  /\ (forall (s : state) (bd : backlight_device) (err : Z),
        gigabyte_kbd_backlight_device s = Some bd ->
        wq_pending s = [] ->
        exists (s1 s2 s3 : state) (e : event),
          gigabyte_kbd_raw_event 4 [4; 0; 0; 0x80] 4 s = Done (0, [4; 0; 0; 0x80], s1)
          /\ gigabyte_kbd_raw_event 4 [4; 0; 0; 0x80] 4 s1
             = Done (0, [4; 0; 0; 0x80], s2)
          /\ klog s2
             = klog s ++ [ScheduleWork gigabyte_kbd_backlight_toggle_work;
                          ScheduleWork gigabyte_kbd_backlight_toggle_work]
          /\ wq_pending s2 = [gigabyte_kbd_backlight_toggle_work]
          /\ process_one_work err s2 = Done s3
          /\ wq_pending s3 = []
          /\ (e = BacklightEnable \/ e = BacklightDisable)
          /\ klog s3 = klog s2 ++ [RunWork gigabyte_kbd_backlight_toggle_work; e]
          /\ occurrences (RunWork gigabyte_kbd_backlight_toggle_work) (klog s3)
             = S (occurrences (RunWork gigabyte_kbd_backlight_toggle_work) (klog s))
          /\ process_one_work err s3 = Done s3).
Proof.
  split; [exact reachable_pending_NoDup |].
  split; [exact schedule_work_twice |].
  intros s bd err Hbl Hq.
  assert (Hcode : u32 (make_u32 4 0 0 0x80) = HIDRAW_FN_F6) by reflexivity.
  set (w := gigabyte_kbd_backlight_toggle_work).
  set (s1 := schedule_work w s).
  set (s2 := schedule_work w s1).
  assert (Hs1 : s1 = set_wq_pending [w] (emit (ScheduleWork w) s)).
  { subst s1. rewrite schedule_work_fresh.
    - rewrite Hq. reflexivity.
    - rewrite Hq. apply not_elem_of_nil. }
  assert (Hs2 : s2 = emit (ScheduleWork w) s1).
  { subst s2. apply schedule_work_pending. apply schedule_work_elem. }
  assert (Hbl1 : gigabyte_kbd_backlight_device s1 = Some bd).
  { rewrite Hs1. exact Hbl. }
  assert (Hbl2 : gigabyte_kbd_backlight_device s2 = Some bd).
  { rewrite Hs2, Hs1. exact Hbl. }
  exists s1, s2.
  destruct (props_power bd =? FB_BLANK_POWERDOWN) eqn:Hoff.
  - exists (emit BacklightEnable
              (set_backlight_device (Some {| props_power := FB_BLANK_UNBLANK |})
                 (emit (RunWork w) (set_wq_pending [] s2)))), BacklightEnable.
    split. { dispatch Hcode. rewrite Hbl. reflexivity. }
    split. { dispatch Hcode. rewrite Hbl1. reflexivity. }
    split. { rewrite Hs2, Hs1. cbn. rewrite <- app_assoc. reflexivity. }
    split. { rewrite Hs2, Hs1. reflexivity. }
    split.
    { unfold process_one_work. rewrite Hs2 at 1. rewrite Hs1 at 1. cbn.
      unfold gigabyte_kbd_backlight_toggle, gigabyte_kbd_is_backlight_off,
        backlight_enable.
      cbn. rewrite Hbl2. cbn. rewrite Hoff. reflexivity. }
    split; [reflexivity |].
    split; [left; reflexivity |].
    split. { cbn. rewrite <- app_assoc. reflexivity. }
    split.
    { cbn [klog emit set_backlight_device set_wq_pending].
      rewrite Hs2, Hs1. cbn [klog emit set_wq_pending].
      rewrite !occurrences_app. unfold w, occurrences. cbn.
      repeat case_decide; try discriminate; try congruence; cbn; lia. }
    reflexivity.
  - exists (emit BacklightDisable
              (set_backlight_device (Some {| props_power := FB_BLANK_POWERDOWN |})
                 (emit (RunWork w) (set_wq_pending [] s2)))), BacklightDisable.
    split. { dispatch Hcode. rewrite Hbl. reflexivity. }
    split. { dispatch Hcode. rewrite Hbl1. reflexivity. }
    split. { rewrite Hs2, Hs1. cbn. rewrite <- app_assoc. reflexivity. }
    split. { rewrite Hs2, Hs1. reflexivity. }
    split.
    { unfold process_one_work. rewrite Hs2 at 1. rewrite Hs1 at 1. cbn.
      unfold gigabyte_kbd_backlight_toggle, gigabyte_kbd_is_backlight_off,
        backlight_disable.
      cbn. rewrite Hbl2. cbn. rewrite Hoff. reflexivity. }
    split; [reflexivity |].
    split; [right; reflexivity |].
    split. { cbn. rewrite <- app_assoc. reflexivity. }
    split.
    { cbn [klog emit set_backlight_device set_wq_pending].
      rewrite Hs2, Hs1. cbn [klog emit set_wq_pending].
      rewrite !occurrences_app. unfold w, occurrences. cbn.
      repeat case_decide; try discriminate; try congruence; cbn; lia. }
    reflexivity.
Qed.

Lemma work_coalescing_witness :
  reachable intel_session
  /\ NoDup (wq_pending intel_session)
  /\ exists (s1 s2 s3 : state) (e : event),
       gigabyte_kbd_raw_event 4 [4; 0; 0; 0x80] 4 intel_session
       = Done (0, [4; 0; 0; 0x80], s1)
       /\ gigabyte_kbd_raw_event 4 [4; 0; 0; 0x80] 4 s1 = Done (0, [4; 0; 0; 0x80], s2)
       /\ wq_pending s2 = [gigabyte_kbd_backlight_toggle_work]
       /\ process_one_work 0 s2 = Done s3
       /\ klog s3 = klog s2 ++ [RunWork gigabyte_kbd_backlight_toggle_work; e]
       /\ process_one_work 0 s3 = Done s3.
Proof.
  assert (Hr : reachable intel_session)
    by (apply (reachable_probe intel_env init), reachable_init).
  split; [exact Hr |].
  split; [exact (proj1 work_coalescing intel_session Hr) |].
  destruct (proj2 (proj2 work_coalescing) intel_session
              {| props_power := FB_BLANK_UNBLANK |} 0 eq_refl eq_refl)
    as (s1 & s2 & s3 & e & H1 & H2 & _ & Hq & Hw & _ & _ & Hlog & _ & Hidle).
  exists s1, s2, s3, e. repeat split; assumption.
Defined.

(** ** The shared input device and its reference count *)

Lemma int_wrap_id (x : Z) : - 2 ^ 31 <= x <= INT_MAX -> int_wrap x = x.
Proof.
  unfold int_wrap, INT_MAX. intros H.
  rewrite Z.mod_small by lia. lia.
Qed.

Lemma setup_registered (alloc : option input_dev) (reg : Z) (s : state) (d : input_dev) :
  gigabyte_kbd_input_dev s = Some d ->
  gigabyte_kbd_setup_input_dev alloc reg s
  = (0, set_refcount (int_wrap (gigabyte_kbd_refcount s + 1)) s).
Proof. intros H. unfold gigabyte_kbd_setup_input_dev. rewrite H. reflexivity. Qed.

Lemma setup_unregistered (alloc : option input_dev) (reg : Z) (s : state) :
  gigabyte_kbd_input_dev s = None ->
  (exists d,
      alloc = Some d /\ reg = 0
      /\ gigabyte_kbd_setup_input_dev alloc reg s
         = (0, set_refcount 1
                 (set_input_dev (Some d)
                    (emit (InputRegisterDevice d fn_keybit 0) s))))
  \/ (fst (gigabyte_kbd_setup_input_dev alloc reg s) <> 0
      /\ gigabyte_kbd_input_dev (snd (gigabyte_kbd_setup_input_dev alloc reg s)) = None
      /\ gigabyte_kbd_refcount (snd (gigabyte_kbd_setup_input_dev alloc reg s))
         = gigabyte_kbd_refcount s).
Proof.
  intros H. unfold gigabyte_kbd_setup_input_dev. rewrite H.
  destruct alloc as [d |].
  - destruct (Z.eqb_spec reg 0) as [-> | Hreg]; cbn.
    + left. exists d. repeat split.
    + right. repeat split; assumption.
  - right. cbn. repeat split; try assumption. unfold ENOMEM. lia.
Qed.

Lemma remove_at_zero (s : state) :
  gigabyte_kbd_refcount s <= 0 -> gigabyte_kbd_remove s = emit HidHwStop s.
Proof.
  intros H. unfold gigabyte_kbd_remove. cbn.
  destruct (Z.ltb_spec 0 (gigabyte_kbd_refcount s)); [lia | reflexivity].
Qed.

Lemma remove_last (s : state) (d : input_dev) :
  gigabyte_kbd_input_dev s = Some d ->
  gigabyte_kbd_refcount s = 1 ->
  gigabyte_kbd_remove s
  = set_input_dev None
      (emit (InputUnregisterDevice d) (set_refcount 0 (emit HidHwStop s))).
Proof.
  intros Hd Hr. unfold gigabyte_kbd_remove. cbn. rewrite Hr, Hd. reflexivity.
Qed.

Lemma remove_shared (s : state) :
  1 < gigabyte_kbd_refcount s <= INT_MAX ->
  gigabyte_kbd_remove s
  = set_refcount (gigabyte_kbd_refcount s - 1) (emit HidHwStop s).
Proof.
  intros Hr. unfold gigabyte_kbd_remove. cbn.
  destruct (Z.ltb_spec 0 (gigabyte_kbd_refcount s)); [| lia].
  rewrite int_wrap_id by (unfold INT_MAX in *; lia).
  destruct (Z.eqb_spec (gigabyte_kbd_refcount s - 1) 0); [lia | reflexivity].
Qed.

Lemma sink_within_mono (n m : Z) (s : state) :
  n <= m -> sink_within n s -> sink_within m s.
Proof.
  intros Hnm [H | (d & Hd & Hr)]; [left; exact H |].
  right. exists d. split; [exact Hd | lia].
Qed.

Lemma sink_within_zero (n : Z) (s : state) :
  n <= 0 -> sink_within n s ->
  gigabyte_kbd_input_dev s = None /\ gigabyte_kbd_refcount s = 0.
Proof. intros Hn [H | (d & _ & Hr)]; [exact H | lia]. Qed.

Lemma setup_within (alloc : option input_dev) (reg n : Z) (s : state) :
  0 <= n < INT_MAX -> sink_within n s ->
  sink_within (n + 1) (snd (gigabyte_kbd_setup_input_dev alloc reg s)).
Proof.
  intros Hn [[Hd Hr] | (d & Hd & Hr)].
  - destruct (setup_unregistered alloc reg s Hd) as [(d & _ & _ & ->) | (_ & Hd' & Hr')].
    + right. exists d. cbn. split; [reflexivity | lia].
    + left. split; [exact Hd' | congruence].
  - rewrite (setup_registered alloc reg s d Hd). cbn.
    rewrite int_wrap_id by (unfold INT_MAX in *; lia).
    right. exists d. split; [exact Hd | cbn; lia].
Qed.

Lemma remove_within (n : Z) (s : state) :
  n <= INT_MAX -> sink_within n s -> sink_within (n - 1) (gigabyte_kbd_remove s).
Proof.
  intros Hn [[Hd Hr] | (d & Hd & Hr)].
  - rewrite remove_at_zero by lia. left. split; assumption.
  - destruct (Z.eq_dec (gigabyte_kbd_refcount s) 1) as [H1 | H1].
    + rewrite (remove_last s d Hd H1). left. split; reflexivity.
    + rewrite remove_shared by lia. right. exists d. cbn.
      split; [exact Hd | lia].
Qed.

Lemma sink_run_within (ops : list sink_op) :
  forall (n : Z) (s : state),
    0 <= n -> n + Z.of_nat (length ops) <= INT_MAX ->
    sink_within n s ->
    sink_within (n + Z.of_nat (length ops)) (sink_run ops s).
Proof.
  induction ops as [| o ops IH]; intros n s Hn Hlen H.
  - cbn. rewrite Z.add_0_r. exact H.
  - cbn [sink_run fold_left length] in *.
    replace (n + Z.of_nat (S (length ops)))
      with ((n + 1) + Z.of_nat (length ops)) by lia.
    apply IH; [lia | lia |].
    destruct o as [alloc reg |]; cbn [sink_step].
    + apply setup_within; [lia | exact H].
    + apply (sink_within_mono (n - 1)); [lia |].
      apply remove_within; [lia | exact H].
Qed.

Lemma sink_run_app (ops1 ops2 : list sink_op) (s : state) :
  sink_run (ops1 ++ ops2) s = sink_run ops2 (sink_run ops1 s).
Proof. unfold sink_run. apply fold_left_app. Qed.

Lemma detaches_within (m : nat) :
  forall (n : Z) (s : state),
    n <= INT_MAX -> n <= Z.of_nat m -> sink_within n s ->
    gigabyte_kbd_input_dev (sink_run (detaches m) s) = None
    /\ gigabyte_kbd_refcount (sink_run (detaches m) s) = 0.
Proof.
  induction m as [| m IH]; intros n s Hmax Hn H.
  - cbn. apply (sink_within_zero n); [lia | exact H].
  - change (sink_run (detaches (S m)) s)
      with (sink_run (detaches m) (gigabyte_kbd_remove s)).
    apply (IH (n - 1)); [lia | lia |].
    apply remove_within; assumption.
Qed.

Lemma attaches_registered (envs : list (option input_dev * Z)) :
  forall (s : state) (d : input_dev),
    gigabyte_kbd_input_dev s = Some d ->
    1 <= gigabyte_kbd_refcount s ->
    gigabyte_kbd_refcount s + Z.of_nat (length envs) <= INT_MAX ->
    gigabyte_kbd_input_dev (sink_run (attaches envs) s) = Some d
    /\ gigabyte_kbd_refcount (sink_run (attaches envs) s)
       = gigabyte_kbd_refcount s + Z.of_nat (length envs)
    /\ klog (sink_run (attaches envs) s) = klog s.
Proof.
  induction envs as [| [alloc reg] envs IH]; intros s d Hd Hr Hlen.
  - cbn. repeat split; [exact Hd | lia].
  - change (sink_run (attaches ((alloc, reg) :: envs)) s)
      with (sink_run (attaches envs) (snd (gigabyte_kbd_setup_input_dev alloc reg s))).
    cbn [length] in *. rewrite Nat2Z.inj_succ in *.
    rewrite (setup_registered alloc reg s d Hd). cbn [snd].
    rewrite int_wrap_id by (unfold INT_MAX in *; lia).
    destruct (IH (set_refcount (gigabyte_kbd_refcount s + 1) s) d) as (H1 & H2 & H3);
      cbn [set_refcount gigabyte_kbd_refcount gigabyte_kbd_input_dev];
      [exact Hd | lia | lia |].
    cbn [set_refcount gigabyte_kbd_refcount] in H2.
    repeat split; [exact H1 | lia | exact H3].
Qed.

Lemma detaches_shared (m : nat) :
  forall (s : state) (d : input_dev),
    gigabyte_kbd_input_dev s = Some d ->
    Z.of_nat m < gigabyte_kbd_refcount s <= INT_MAX ->
    gigabyte_kbd_input_dev (sink_run (detaches m) s) = Some d
    /\ gigabyte_kbd_refcount (sink_run (detaches m) s)
       = gigabyte_kbd_refcount s - Z.of_nat m.
Proof.
  induction m as [| m IH]; intros s d Hd Hr.
  - cbn. split; [exact Hd | lia].
  - change (sink_run (detaches (S m)) s)
      with (sink_run (detaches m) (gigabyte_kbd_remove s)).
    rewrite Nat2Z.inj_succ in *.
    rewrite remove_shared by lia.
    destruct (IH (set_refcount (gigabyte_kbd_refcount s - 1) (emit HidHwStop s)) d)
      as (H1 & H2);
      cbn [set_refcount emit gigabyte_kbd_refcount gigabyte_kbd_input_dev];
      [exact Hd | lia |].
    cbn [set_refcount emit gigabyte_kbd_refcount] in H2.
    split; [exact H1 | lia].
Qed.

Lemma setup_keeps_registered (alloc : option input_dev) (reg : Z) (s : state) :
  (0 < gigabyte_kbd_refcount s -> gigabyte_kbd_input_dev s <> None) ->
  0 < gigabyte_kbd_refcount (snd (gigabyte_kbd_setup_input_dev alloc reg s)) ->
  gigabyte_kbd_input_dev (snd (gigabyte_kbd_setup_input_dev alloc reg s)) <> None.
Proof.
  intros Hinv.
  destruct (gigabyte_kbd_input_dev s) as [d |] eqn:Hd.
  - rewrite (setup_registered alloc reg s d Hd). cbn. rewrite Hd. discriminate.
  - destruct (setup_unregistered alloc reg s Hd) as [(d & _ & _ & ->) | (_ & _ & ->)].
    + cbn. discriminate.
    + intros Hpos. exfalso. apply (Hinv Hpos). reflexivity.
Qed.

Lemma remove_keeps_registered (s : state) :
  (0 < gigabyte_kbd_refcount s -> gigabyte_kbd_input_dev s <> None) ->
  0 < gigabyte_kbd_refcount (gigabyte_kbd_remove s) ->
  gigabyte_kbd_input_dev (gigabyte_kbd_remove s) <> None.
Proof.
  intros Hinv. unfold gigabyte_kbd_remove. cbn.
  destruct (Z.ltb_spec 0 (gigabyte_kbd_refcount s)) as [Hpos | Hle]; cbn.
  - destruct (Z.eqb_spec (int_wrap (gigabyte_kbd_refcount s - 1)) 0) as [H0 | H0].
    + destruct (gigabyte_kbd_input_dev s); cbn; lia.
    + cbn. intros _. apply Hinv. exact Hpos.
  - lia.
Qed.

Lemma probe_keeps_registered (env : probe_env) (s : state) :
  (0 < gigabyte_kbd_refcount s -> gigabyte_kbd_input_dev s <> None) ->
  0 < gigabyte_kbd_refcount (snd (gigabyte_kbd_probe env s)) ->
  gigabyte_kbd_input_dev (snd (gigabyte_kbd_probe env s)) <> None.
Proof.
  intros Hinv. unfold gigabyte_kbd_probe.
  destruct (negb (devm_kzalloc_ok env)); [exact Hinv |].
  destruct (negb (hid_parse_ret env =? 0)); [exact Hinv |].
  destruct (negb (hid_hw_start_ret env =? 0)); [exact Hinv |].
  cbn [snd].
  match goal with
  | |- context [gigabyte_kbd_setup_input_dev ?a ?r ?s0] =>
      pose proof (setup_keeps_registered a r s0) as Hsetup;
      set (s1 := snd (gigabyte_kbd_setup_input_dev a r s0)) in *
  end.
  assert (Hpre : 0 < gigabyte_kbd_refcount s1 -> gigabyte_kbd_input_dev s1 <> None).
  { apply Hsetup. repeat case_match; exact Hinv. }
  repeat case_match; exact Hpre.
Qed.

Lemma reachable_registered (s : state) :
  reachable s -> 0 < gigabyte_kbd_refcount s -> gigabyte_kbd_input_dev s <> None.
Proof.
  induction 1 as [| env s _ IH | s _ IH | report_id rd size s ret rd' s' _ IH Hev
                 | err s s' _ IH Hw].
  - cbn. lia.
  - apply probe_keeps_registered. exact IH.
  - apply remove_keeps_registered. exact IH.
  - apply raw_event_sink in Hev as [-> ->]. exact IH.
  - apply process_one_work_frame in Hw as (-> & -> & _). exact IH.
Qed.

Lemma attach_rets_head (envs : list (option input_dev * Z)) (s : state) :
  gigabyte_kbd_input_dev s = None ->
  envs <> [] ->
  Forall (fun r => r = 0) (attach_rets (attaches envs) s) ->
  exists d rest,
    envs = (Some d, 0) :: rest
    /\ sink_run (attaches envs) s
       = sink_run (attaches rest)
           (set_refcount 1
              (set_input_dev (Some d) (emit (InputRegisterDevice d fn_keybit 0) s))).
Proof.
  intros Hd Hne Hall.
  destruct envs as [| [alloc reg] rest]; [contradiction |].
  cbn [attaches map attach_rets fst snd] in Hall.
  apply Forall_cons in Hall as [Hret _].
  destruct (setup_unregistered alloc reg s Hd) as [(d & -> & -> & Heq) | (Hfail & _)];
    [| contradiction].
  exists d, rest. split; [reflexivity |].
  change (sink_run (attaches ((Some d, 0) :: rest)) s)
    with (sink_run (attaches rest) (snd (gigabyte_kbd_setup_input_dev (Some d) 0 s))).
  rewrite Heq. reflexivity.
Qed.

(** C4. From an unregistered device with a zero count, for every N from 1
    up to INT_MAX: N attaches, whatever the input core answers to them,
    followed by N detaches leave the device unregistered; when the N
    attaches succeed, N-1 detaches leave the device registered, the one
    created by the first attach, and a further attach succeeds on that same
    device, changing the count only.  In every reachable state a positive
    count comes with a registered device. *)
Theorem sink_refcounting :
  (forall (N : nat) (envs : list (option input_dev * Z)) (s : state),
      (1 <= N)%nat -> Z.of_nat N <= INT_MAX -> length envs = N ->
      gigabyte_kbd_input_dev s = None -> gigabyte_kbd_refcount s = 0 ->
      (gigabyte_kbd_input_dev (sink_run (attaches envs ++ detaches N) s) = None
       /\ gigabyte_kbd_refcount (sink_run (attaches envs ++ detaches N) s) = 0)
      /\ (Forall (fun r => r = 0) (attach_rets (attaches envs) s) ->
          exists d : input_dev,
            fst <$> head envs = Some (Some d)
            /\ gigabyte_kbd_input_dev
                 (sink_run (attaches envs ++ detaches (N - 1)) s) = Some d
            /\ gigabyte_kbd_refcount
                 (sink_run (attaches envs ++ detaches (N - 1)) s) = 1
            /\ forall (alloc : option input_dev) (reg : Z),
                 gigabyte_kbd_setup_input_dev alloc reg
                   (sink_run (attaches envs ++ detaches (N - 1)) s)
                 = (0, set_refcount 2
                         (sink_run (attaches envs ++ detaches (N - 1)) s))))
  /\ (forall s : state,
        reachable s -> 0 < gigabyte_kbd_refcount s ->
        exists d : input_dev, gigabyte_kbd_input_dev s = Some d).
Proof.
  split.
  - intros N envs s HN Hmax Hlen Hd Hr. split.
    + rewrite sink_run_app.
      apply (detaches_within N (Z.of_nat N)); [exact Hmax | lia |].
      rewrite <- Hlen.
      replace (Z.of_nat (length envs))
        with (0 + Z.of_nat (length (attaches envs)))
        by (unfold attaches; rewrite length_map; lia).
      apply sink_run_within; [lia | |].
      * unfold attaches. rewrite length_map. lia.
      * left. split; assumption.
    + intros Hall.
      destruct (attach_rets_head envs s Hd) as (d & rest & -> & Hrun);
        [intros ->; cbn in Hlen; lia | exact Hall |].
      cbn [length] in Hlen.
      exists d. split; [reflexivity |].
      rewrite sink_run_app, Hrun.
      set (s1 := set_refcount 1
                   (set_input_dev (Some d)
                      (emit (InputRegisterDevice d fn_keybit 0) s))).
      destruct (attaches_registered rest s1 d) as (Hd2 & Hr2 & _);
        [reflexivity | cbn; lia | cbn; lia |].
      cbn [s1 set_refcount gigabyte_kbd_refcount] in Hr2.
      destruct (detaches_shared (N - 1) (sink_run (attaches rest) s1) d Hd2)
        as (Hd3 & Hr3); [rewrite Hr2; lia |].
      rewrite Hr2 in Hr3.
      assert (Hone : gigabyte_kbd_refcount
                       (sink_run (detaches (N - 1)) (sink_run (attaches rest) s1)) = 1)
        by lia.
      split; [exact Hd3 |]. split; [exact Hone |].
      intros alloc reg.
      rewrite (setup_registered alloc reg _ d Hd3), Hone. reflexivity.
  - intros s Hreach Hpos.
    pose proof (reachable_registered s Hreach Hpos) as Hne.
    destruct (gigabyte_kbd_input_dev s) as [d |]; [exists d; reflexivity | contradiction].
Qed.

Lemma sink_refcounting_witness :
  gigabyte_kbd_input_dev
    (sink_run (attaches [(Some 3%nat, 0); (Some 4%nat, 0)] ++ detaches 2) init) = None
  /\ gigabyte_kbd_input_dev
       (sink_run (attaches [(Some 3%nat, 0); (Some 4%nat, 0)] ++ detaches 1) init)
     = Some 3%nat
  /\ gigabyte_kbd_setup_input_dev (Some 5%nat) 0
       (sink_run (attaches [(Some 3%nat, 0); (Some 4%nat, 0)] ++ detaches 1) init)
     = (0, set_refcount 2
             (sink_run (attaches [(Some 3%nat, 0); (Some 4%nat, 0)] ++ detaches 1) init))
  /\ exists d : input_dev, gigabyte_kbd_input_dev intel_session = Some d.
Proof.
  assert (HN : (1 <= 2)%nat) by lia.
  assert (Hmax : Z.of_nat 2 <= INT_MAX) by (vm_compute; discriminate).
  destruct (proj1 sink_refcounting 2%nat [(Some 3%nat, 0); (Some 4%nat, 0)] init
              HN Hmax eq_refl eq_refl eq_refl) as [[Hnone _] Hreuse].
  destruct Hreuse as (d & Hhead & Hd & _ & Hnext).
  { repeat constructor. }
  injection Hhead as <-.
  split; [exact Hnone |].
  split; [exact Hd |].
  split; [apply Hnext |].
  apply (proj2 sink_refcounting intel_session).
  - apply (reachable_probe intel_env init), reachable_init.
  - vm_compute. reflexivity.
Defined.

(** C10. Along every run of attaches and detaches from module load that is
    no longer than INT_MAX the count never is negative.  A detach at a zero
    count only stops the HID hardware: the count, the device pointer and
    the registration are left as they are. *)
Theorem refcount_never_negative :
  (forall ops : list sink_op,
      Z.of_nat (length ops) <= INT_MAX ->
      0 <= gigabyte_kbd_refcount (sink_run ops init))
  /\ (forall s : state,
        gigabyte_kbd_refcount s = 0 ->
        gigabyte_kbd_remove s = emit HidHwStop s
        /\ gigabyte_kbd_refcount (gigabyte_kbd_remove s) = 0
        /\ gigabyte_kbd_input_dev (gigabyte_kbd_remove s) = gigabyte_kbd_input_dev s).
Proof.
  split.
  - intros ops Hlen.
    destruct (sink_run_within ops 0 init) as [[_ Hr] | (d & _ & Hr)];
      [lia | lia | left; split; reflexivity | lia | lia].
  - intros s Hr. rewrite remove_at_zero by lia.
    repeat split. exact Hr.
Qed.

Lemma refcount_never_negative_witness :
  0 <= gigabyte_kbd_refcount
         (sink_run [Attach None 0; Detach; Attach (Some 3%nat) 0; Detach; Detach] init)
  /\ gigabyte_kbd_remove (snd (gigabyte_kbd_setup_input_dev None 0 init))
     = emit HidHwStop (snd (gigabyte_kbd_setup_input_dev None 0 init)).
Proof.
  split.
  - apply (proj1 refcount_never_negative
             [Attach None 0; Detach; Attach (Some 3%nat) 0; Detach; Detach]).
    vm_compute. discriminate.
  - apply (proj2 refcount_never_negative
             (snd (gigabyte_kbd_setup_input_dev None 0 init))).
    reflexivity.
Defined.

(** * Further properties of the driver *)

(** ** The report code *)

(** X1. On four bytes [make_u32] spells the big-endian number: the code
    fits 32 bits, and two reports with the same code have the same four
    bytes. *)
Theorem report_code_big_endian :
  forall a b c d a' b' c' d' : Z,
    is_u8 a = true -> is_u8 b = true -> is_u8 c = true -> is_u8 d = true ->
    is_u8 a' = true -> is_u8 b' = true -> is_u8 c' = true -> is_u8 d' = true ->
    u32 (make_u32 a b c d) = a * 2 ^ 24 + b * 2 ^ 16 + c * 2 ^ 8 + d
    /\ 0 <= u32 (make_u32 a b c d) < 2 ^ 32
    /\ (u32 (make_u32 a b c d) = u32 (make_u32 a' b' c' d') ->
        [a; b; c; d] = [a'; b'; c'; d']).
Proof.
  intros a b c d a' b' c' d' Ha Hb Hc Hd Ha' Hb' Hc' Hd'.
  split; [apply hidraw_of_bytes; assumption |].
  split; [unfold u32; apply Z.mod_pos_bound; lia |].
  intros Heq.
  destruct (bytes_of_hidraw a b c d a' b' c' d') as (-> & -> & -> & ->);
    try assumption.
  reflexivity.
Qed.

Lemma report_code_big_endian_witness :
  u32 (make_u32 4 0 1 0x86) = 4 * 2 ^ 24 + 0 * 2 ^ 16 + 1 * 2 ^ 8 + 0x86
  /\ 0 <= u32 (make_u32 4 0 1 0x86) < 2 ^ 32.
Proof.
  destruct (report_code_big_endian 4 0 1 0x86 4 0 0 0x86
              eq_refl eq_refl eq_refl eq_refl eq_refl eq_refl eq_refl eq_refl)
    as (Hval & Hrange & _).
  split; [exact Hval | exact Hrange].
Defined.

(** ** Key pulses *)

(** X2. Each of the six pulse codes (Fn+ESC, F2, F5, F11, F12 and the
    alternative F12) is handled: 1 is returned, the bytes are left as they
    are, and the key of the code is pulsed on the Fn Keys device (down,
    sync, up, sync), or nothing is reported when that device does not
    exist. *)
Theorem pulse_codes_emit_key :
  forall (a b c d code : Z) (k : key) (s : state),
    In (code, k) pulse_codes ->
    u32 (make_u32 a b c d) = code ->
    gigabyte_kbd_raw_event 4 [a; b; c; d] 4 s
    = Done (1, [a; b; c; d],
            match gigabyte_kbd_input_dev s with
            | Some input =>
                emits [InputReportKey input k 1; InputSync input;
                       InputReportKey input k 0; InputSync input] s
            | None => s
            end).
Proof.
  intros a b c d code k s Hin Hcode.
  assert (Hpulse : forall input,
             gigabyte_kbd_emit_key (Some input) k s
             = emits [InputReportKey input k 1; InputSync input;
                      InputReportKey input k 0; InputSync input] s).
  { intros input. unfold gigabyte_kbd_emit_key, input_sync, input_report_key.
    rewrite (emit_as_emits (InputReportKey input k 1) s), !emit_emits.
    reflexivity. }
  cbn in Hin.
  destruct Hin as [Heq | [Heq | [Heq | [Heq | [Heq | [Heq | []]]]]]];
    injection Heq as <- <-; dispatch Hcode;
    (destruct (gigabyte_kbd_input_dev s) as [input |];
     [rewrite Hpulse; reflexivity | reflexivity]).
Qed.

Lemma pulse_codes_emit_key_witness :
  gigabyte_kbd_raw_event 4 [4; 0; 0; 0x88] 4 intel_session
  = Done (1, [4; 0; 0; 0x88],
          emits [InputReportKey 3%nat KEY_PROG1 1; InputSync 3%nat;
                 InputReportKey 3%nat KEY_PROG1 0; InputSync 3%nat] intel_session).
Proof.
  apply (pulse_codes_emit_key 4 0 0 0x88 HIDRAW_FN_F12_ALT KEY_PROG1 intel_session).
  - simpl. tauto.
  - reflexivity.
Defined.

(** ** What the handler returns and leaves in the buffer *)

Lemma store_done (rd rd' : list Z) (i : nat) (v : Z) :
  store rd i v = Done rd' -> (i < length rd)%nat /\ rd' = <[i := v]> rd.
Proof.
  unfold store. case_decide as Hlt; intros Hst; [| discriminate Hst].
  injection Hst as <-. split; [exact Hlt | reflexivity].
Qed.

(** The three ways the handler returns: passed through, handled by a key
    report, handled by a brightness step. *)
Lemma raw_event_cases report_id rd size s ret rd' s' :
  gigabyte_kbd_raw_event report_id rd size s = Done (ret, rd', s') ->
  (ret = 0 /\ rd' = rd /\ (s' = s \/ exists w, s' = schedule_work w s))
  \/ (ret = 1 /\ rd' = rd
      /\ ((exists k, s' = gigabyte_kbd_emit_key (gigabyte_kbd_input_dev s) k s)
          \/ exists k pressed, s' = gigabyte_kbd_emit_volume k pressed s))
  \/ (ret = 1 /\ (3 <= length rd)%nat
      /\ exists step,
           rd' = <[2%nat := 0]> (<[1%nat := 0]> (<[0%nat := 3]>
                   (<[2%nat := 0]> (<[1%nat := step]> (<[0%nat := 3]> rd)))))
           /\ s' = hid_report_raw_event
                     (<[2%nat := 0]> (<[1%nat := step]> (<[0%nat := 3]> rd))) 4 s).
Proof.
  unfold gigabyte_kbd_raw_event, load, gigabyte_kbd_is_backlight_off.
  unfold mbind, outcome_bind.
  intros H.
  repeat case_match; try discriminate; simplify_eq;
    repeat match goal with
           | E : store _ _ _ = Done _ |- _ => apply store_done in E as [? ->]
           end;
    first
      [ left; split; [reflexivity |]; split; [reflexivity |]; eauto
      | right; left; split; [reflexivity |]; split; [reflexivity |]; eauto
      | right; right; split; [reflexivity |];
        split; [rewrite ?length_insert in *; lia |];
        eexists; split; reflexivity ].
Qed.

(** X3. Whenever the handler returns, it returns 0 or 1 and the buffer
    keeps its length and every byte from index 3 on.  When it returns 0
    (the report is passed on to the HID core) the bytes are exactly as
    received and no key was reported: the log is unchanged or has gained
    one [schedule_work] call. *)
Theorem raw_event_buffer :
  forall (report_id size ret : Z) (rd rd' : list Z) (s s' : state),
    gigabyte_kbd_raw_event report_id rd size s = Done (ret, rd', s') ->
    (ret = 0 \/ ret = 1)
    /\ length rd' = length rd
    /\ (forall i : nat, (3 <= i)%nat -> rd' !! i = rd !! i)
    /\ (ret = 0 ->
        rd' = rd
        /\ (klog s' = klog s \/ exists w, klog s' = klog s ++ [ScheduleWork w])).
Proof.
  intros report_id size ret rd rd' s s' H.
  apply raw_event_cases in H
    as [(-> & -> & Hs) | [(-> & -> & _) | (-> & Hlen & step & -> & _)]].
  - split; [left; reflexivity |]. split; [reflexivity |].
    split; [reflexivity |]. intros _. split; [reflexivity |].
    destruct Hs as [-> | [w ->]]; [left; reflexivity |].
    right. exists w. unfold schedule_work. case_decide; reflexivity.
  - split; [right; reflexivity |]. split; [reflexivity |].
    split; [reflexivity |]. intros Hret. discriminate Hret.
  - split; [right; reflexivity |]. split; [rewrite !length_insert; reflexivity |].
    split; [| intros Hret; discriminate Hret].
    intros i Hi. rewrite !list_lookup_insert_ne by lia. reflexivity.
Qed.

Lemma raw_event_buffer_witness :
  length [3; 0; 0; 0x7D] = length [4; 0; 0; 0x7D]
  /\ [3; 0; 0; 0x7D] !! 3%nat = [4; 0; 0; 0x7D] !! 3%nat.
Proof.
  destruct (raw_event_buffer 4 4 1 [4; 0; 0; 0x7D] [3; 0; 0; 0x7D] intel_session
              (emit (HidReportRawEvent [3; 0x70; 0; 0x7D]) intel_session) eq_refl)
    as (_ & Hlen & Hkeep & _).
  split; [exact Hlen |]. apply Hkeep. lia.
Defined.

Lemma emit_key_calls (input : option input_dev) (k : key) (s : state) :
  exists es,
    gigabyte_kbd_emit_key input k s = emits es s
    /\ forallb is_atomic_call es = true.
Proof.
  destruct input as [input |]; cbn.
  - exists [InputReportKey input k 1; InputSync input;
            InputReportKey input k 0; InputSync input].
    split; [| reflexivity].
    unfold input_sync, input_report_key.
    rewrite (emit_as_emits (InputReportKey input k 1) s), !emit_emits.
    reflexivity.
  - exists []. split; [| reflexivity].
    unfold emits. rewrite app_nil_r. destruct s; reflexivity.
Qed.

Lemma emit_volume_calls (k : key) (pressed : Z) (s : state) :
  exists es,
    gigabyte_kbd_emit_volume k pressed s = emits es s
    /\ forallb is_atomic_call es = true.
Proof.
  unfold gigabyte_kbd_emit_volume, input_sync, input_report_key.
  destruct (gigabyte_kbd_consumer_dev s) as [dev |];
    [| destruct (gigabyte_kbd_input_dev s) as [dev |]].
  1, 2: exists [InputReportKey dev k pressed; InputSync dev];
    split; [apply emit_twice | reflexivity].
  exists []. split; [| reflexivity].
  unfold emits. rewrite app_nil_r. destruct s; reflexivity.
Qed.

(** X4. The handler itself never sleeps and never touches a peripheral:
    whenever it returns, the calls it has added to the log are key reports,
    synchronisations, the re-injection of a report and [schedule_work]
    only, and the backlight device with its power state, the touchpad
    device with its binding, the remembered driver, both input devices and
    the reference count are as before. *)
Theorem raw_event_defers :
  forall (report_id size ret : Z) (rd rd' : list Z) (s s' : state),
    gigabyte_kbd_raw_event report_id rd size s = Done (ret, rd', s') ->
    (exists es, klog s' = klog s ++ es /\ forallb is_atomic_call es = true)
    /\ gigabyte_kbd_backlight_device s' = gigabyte_kbd_backlight_device s
    /\ gigabyte_kbd_touchpad_device s' = gigabyte_kbd_touchpad_device s
    /\ gigabyte_kbd_touchpad_driver s' = gigabyte_kbd_touchpad_driver s
    /\ gigabyte_kbd_input_dev s' = gigabyte_kbd_input_dev s
    /\ gigabyte_kbd_consumer_dev s' = gigabyte_kbd_consumer_dev s
    /\ gigabyte_kbd_refcount s' = gigabyte_kbd_refcount s.
Proof.
  intros report_id size ret rd rd' s s' H.
  apply raw_event_effects in H.
  destruct H as [| k | k pressed | w | rd0 size0].
  - split; [exists []; rewrite app_nil_r; split; reflexivity |]. repeat split.
  - destruct (emit_key_calls (gigabyte_kbd_input_dev s) k s) as (es & -> & Hes).
    split; [exists es; split; [reflexivity | exact Hes] |]. repeat split.
  - destruct (emit_volume_calls k pressed s) as (es & -> & Hes).
    split; [exists es; split; [reflexivity | exact Hes] |]. repeat split.
  - split; [exists [ScheduleWork w]; split; [| reflexivity] |].
    + unfold schedule_work. case_decide; reflexivity.
    + unfold schedule_work. case_decide; repeat split.
  - split; [eexists; split; [reflexivity | reflexivity] |]. repeat split.
Qed.

Lemma raw_event_defers_witness :
  exists es,
    klog (schedule_work gigabyte_kbd_backlight_toggle_work intel_session)
    = klog intel_session ++ es
    /\ forallb is_atomic_call es = true.
Proof.
  exact (proj1 (raw_event_defers 4 4 0 [4; 0; 0; 0x80] [4; 0; 0; 0x80] intel_session
                  (schedule_work gigabyte_kbd_backlight_toggle_work intel_session)
                  eq_refl)).
Defined.

(** ** When the handler does not return *)






(** ** The backlight toggle *)

(** X6. With a backlight device, [gigabyte_kbd_backlight_toggle] enables
    it when it is powered down and disables it otherwise, by one call, and
    the powered-down test gives the opposite answer afterwards; so two
    toggles in a row give the first answer again.  Without a backlight
    device the toggle does not return. *)
Theorem backlight_toggle_flips :
  forall s : state,
    (forall bd : backlight_device,
        gigabyte_kbd_backlight_device s = Some bd ->
        exists s1 s2,
          gigabyte_kbd_backlight_toggle s = Done s1
          /\ klog s1
             = klog s ++ [if props_power bd =? FB_BLANK_POWERDOWN
                          then BacklightEnable else BacklightDisable]
          /\ gigabyte_kbd_is_backlight_off s1
             = Done (negb (props_power bd =? FB_BLANK_POWERDOWN))
          /\ gigabyte_kbd_backlight_toggle s1 = Done s2
          /\ gigabyte_kbd_is_backlight_off s2
             = Done (props_power bd =? FB_BLANK_POWERDOWN))
    /\ (gigabyte_kbd_backlight_device s = None ->
        gigabyte_kbd_backlight_toggle s = Oops NullDeref).
Proof.
  intros s. split.
  - intros bd Hbl.
    unfold gigabyte_kbd_backlight_toggle at 1.
    unfold gigabyte_kbd_is_backlight_off at 1.
    rewrite Hbl. cbn.
    unfold backlight_enable, backlight_disable. rewrite Hbl.
    destruct (props_power bd =? FB_BLANK_POWERDOWN);
      eexists; eexists; (split; [reflexivity |]); repeat split.
  - intros Hbl. unfold gigabyte_kbd_backlight_toggle, gigabyte_kbd_is_backlight_off.
    rewrite Hbl. reflexivity.
Qed.

Lemma backlight_toggle_flips_witness :
  exists s1 s2,
    gigabyte_kbd_backlight_toggle intel_session = Done s1
    /\ klog s1 = klog intel_session ++ [BacklightDisable]
    /\ gigabyte_kbd_is_backlight_off s1 = Done true
    /\ gigabyte_kbd_backlight_toggle s1 = Done s2
    /\ gigabyte_kbd_is_backlight_off s2 = Done false.
Proof.
  exact (proj1 (backlight_toggle_flips intel_session)
           {| props_power := FB_BLANK_UNBLANK |} eq_refl).
Defined.

(** ** The touchpad toggle, run after run *)

Lemma touchpad_toggle_restorable (drv : device_driver) (err : Z) (s : state) :
  touchpad_restorable drv s ->
  exists s' es,
    gigabyte_kbd_touchpad_toggle_driver err s = Done s'
    /\ touchpad_restorable drv s'
    /\ klog s' = klog s ++ es
    /\ Forall (is_binding_call drv) es.
Proof.
  intros (dev & Hdev & [Hbound | [Hunbound Hmem]]).
  - unfold gigabyte_kbd_touchpad_toggle_driver. rewrite Hdev, Hbound.
    unfold device_release_driver. cbn. rewrite Hdev.
    eexists. exists [DeviceReleaseDriver].
    split; [reflexivity |]. split; [| split; [reflexivity |]].
    + exists {| ACPI_COMPANION := ACPI_COMPANION dev; driver := None |}.
      split; [reflexivity |]. right. split; reflexivity.
    + apply Forall_singleton. left. reflexivity.
  - unfold gigabyte_kbd_touchpad_toggle_driver. rewrite Hdev, Hunbound, Hmem.
    unfold device_driver_attach. rewrite Hdev.
    destruct (err =? 0); cbn; eexists; exists [DeviceDriverAttach drv err];
      (split; [reflexivity |]); (split; [| split; [reflexivity |]]).
    + exists {| ACPI_COMPANION := ACPI_COMPANION dev; driver := Some drv |}.
      split; [reflexivity |]. left. reflexivity.
    + apply Forall_singleton. right. exists err. reflexivity.
    + exists dev. split; [exact Hdev |]. right. split; assumption.
    + apply Forall_singleton. right. exists err. reflexivity.
Qed.

Lemma touchpad_toggle_run_restorable (drv : device_driver) (errs : list Z) :
  forall s : state,
    touchpad_restorable drv s ->
    exists s' es,
      touchpad_toggle_run errs s = Done s'
      /\ touchpad_restorable drv s'
      /\ klog s' = klog s ++ es
      /\ Forall (is_binding_call drv) es.
Proof.
  induction errs as [| err errs IH]; intros s Hs.
  - exists s, []. cbn. rewrite app_nil_r. repeat split; [exact Hs | constructor].
  - destruct (touchpad_toggle_restorable drv err s Hs) as (s1 & es1 & H1 & Hs1 & Hlog1 & Hes1).
    destruct (IH s1 Hs1) as (s2 & es2 & H2 & Hs2 & Hlog2 & Hes2).
    exists s2, (es1 ++ es2). cbn. rewrite H1. cbn.
    split; [exact H2 |]. split; [exact Hs2 |].
    split; [rewrite Hlog2, Hlog1, app_assoc; reflexivity |].
    apply Forall_app. split; assumption.
Qed.

(** X7. Starting with the touchpad bound to a driver, any number of
    toggles, whatever the driver core answers to the attaches, all return,
    and afterwards the touchpad is either bound to that same driver or
    unbound with that driver remembered (so that a later toggle attaches it
    again); the only driver-core calls made are releases and attaches of
    that driver. *)
Theorem touchpad_toggles_restore_driver :
  forall (errs : list Z) (s : state) (dev : device) (drv : device_driver),
    gigabyte_kbd_touchpad_device s = Some dev ->
    driver dev = Some drv ->
    exists s' es,
      touchpad_toggle_run errs s = Done s'
      /\ touchpad_restorable drv s'
      /\ klog s' = klog s ++ es
      /\ Forall (is_binding_call drv) es.
Proof.
  intros errs s dev drv Hdev Hdrv.
  apply touchpad_toggle_run_restorable.
  exists dev. split; [exact Hdev | left; exact Hdrv].
Qed.

Lemma touchpad_toggles_restore_driver_witness :
  exists s' es,
    touchpad_toggle_run [0; 5; 0; 0] touchpad_bound = Done s'
    /\ touchpad_restorable 9%nat s'
    /\ klog s' = klog touchpad_bound ++ es
    /\ Forall (is_binding_call 9%nat) es.
Proof.
  exact (touchpad_toggles_restore_driver [0; 5; 0; 0] touchpad_bound example_touchpad 9%nat
           eq_refl eq_refl).
Defined.

(** ** Touchpad matching *)

(** X8. [gigabyte_kbd_match_touchpad_device] answers 1 exactly for a
    device that has an ACPI companion whose hardware id, bus id and
    instance number are together one of the entries of the identifier
    table, and 0 for every other device. *)
Theorem match_touchpad_device_table :
  forall dev : device,
    (gigabyte_kbd_match_touchpad_device dev = 1
     <-> exists acpi,
           ACPI_COMPANION dev = Some acpi
           /\ In {| hid := acpi_device_hid acpi; bid := acpi_device_bid acpi;
                    instance_no := pnp_instance_no acpi |}
                gigabyte_kbd_touchpad_device_identifiers)
    /\ (gigabyte_kbd_match_touchpad_device dev <> 1 ->
        gigabyte_kbd_match_touchpad_device dev = 0).
Proof.
  intros dev. unfold gigabyte_kbd_match_touchpad_device.
  destruct (ACPI_COMPANION dev) as [acpi |].
  - match goal with
    | |- context [existsb ?f ?l] => destruct (existsb f l) eqn:Hex
    end.
    + split; [| intros Hne; contradiction].
      split; [intros _ | reflexivity].
      exists acpi. split; [reflexivity |].
      apply existsb_exists in Hex as ([h b n] & Hin & Hmatch).
      cbn in Hmatch.
      apply andb_prop in Hmatch as [Hmatch Hn].
      apply andb_prop in Hmatch as [Hh Hb].
      apply String.eqb_eq in Hh, Hb. apply Z.eqb_eq in Hn. subst.
      exact Hin.
    + split; [| reflexivity].
      split; [intros Hone; discriminate Hone |].
      intros (acpi' & Heq & Hin). injection Heq as <-.
      exfalso.
      assert (Hfalse : existsb
                (fun id =>
                   String.eqb (hid id) (acpi_device_hid acpi)
                   && String.eqb (bid id) (acpi_device_bid acpi)
                   && (instance_no id =? pnp_instance_no acpi))
                gigabyte_kbd_touchpad_device_identifiers = true).
      { apply existsb_exists. eexists. split; [exact Hin |]. cbn.
        rewrite !String.eqb_refl, Z.eqb_refl. reflexivity. }
      congruence.
  - split; [| reflexivity].
    split; [intros Hone; discriminate Hone |].
    intros (acpi & Heq & _). discriminate Heq.
Qed.

Lemma match_touchpad_device_table_witness :
  gigabyte_kbd_match_touchpad_device example_touchpad = 1.
Proof.
  apply (proj1 (match_touchpad_device_table example_touchpad)).
  eexists. split; [reflexivity |]. simpl. tauto.
Defined.

(** ** Creating the Fn Keys device *)

(** X9. [gigabyte_kbd_setup_input_dev] returns 0 exactly when the Fn Keys
    device is registered afterwards.  When it fails, the device pointer and
    the count are as before, the value returned is -ENOMEM if no device
    could be allocated (nothing is logged) and otherwise the error of the
    registration, in which case the device just allocated is freed. *)
Theorem setup_input_dev_result :
  forall (alloc : option input_dev) (reg : Z) (s : state),
    (fst (gigabyte_kbd_setup_input_dev alloc reg s) = 0
     <-> gigabyte_kbd_input_dev (snd (gigabyte_kbd_setup_input_dev alloc reg s)) <> None)
    /\ (fst (gigabyte_kbd_setup_input_dev alloc reg s) <> 0 ->
        gigabyte_kbd_input_dev (snd (gigabyte_kbd_setup_input_dev alloc reg s)) = None
        /\ gigabyte_kbd_refcount (snd (gigabyte_kbd_setup_input_dev alloc reg s))
           = gigabyte_kbd_refcount s
        /\ (alloc = None
            /\ gigabyte_kbd_setup_input_dev alloc reg s = (- ENOMEM, s)
            \/ exists d,
                 alloc = Some d
                 /\ gigabyte_kbd_setup_input_dev alloc reg s
                    = (reg, emits [InputRegisterDevice d fn_keybit reg;
                                   InputFreeDevice d] s))).
Proof.
  intros alloc reg s. unfold gigabyte_kbd_setup_input_dev.
  destruct (gigabyte_kbd_input_dev s) as [d0 |] eqn:Hd; cbn.
  - rewrite Hd. split; [split; [discriminate | reflexivity] |].
    intros Hne. contradiction.
  - destruct alloc as [d |]; cbn.
    + destruct (Z.eqb_spec reg 0) as [-> | Hreg]; cbn.
      * split; [split; [discriminate | reflexivity] |]. intros Hne. contradiction.
      * rewrite Hd. split; [split; [contradiction | intros Hne; contradiction] |].
        intros _. repeat split. right. exists d. split; [reflexivity |].
        rewrite emit_twice. reflexivity.
    + rewrite Hd. unfold ENOMEM.
      split; [split; [intros H0; discriminate H0 | intros Hne; contradiction] |].
      intros _. repeat split. left. split; reflexivity.
Qed.

Lemma setup_input_dev_result_witness :
  gigabyte_kbd_input_dev (snd (gigabyte_kbd_setup_input_dev (Some 3%nat) (-19) init)) = None
  /\ gigabyte_kbd_refcount (snd (gigabyte_kbd_setup_input_dev (Some 3%nat) (-19) init))
     = gigabyte_kbd_refcount init.
Proof.
  destruct (proj2 (setup_input_dev_result (Some 3%nat) (-19) init))
    as (Hd & Hr & _).
  - vm_compute. discriminate.
  - split; [exact Hd | exact Hr].
Defined.

(** ** Probing *)

Lemma probe_ok_inv (env : probe_env) (s : state) :
  fst (gigabyte_kbd_probe env s) = 0 ->
  devm_kzalloc_ok env = true /\ hid_parse_ret env = 0 /\ hid_hw_start_ret env = 0.
Proof.
  unfold gigabyte_kbd_probe.
  destruct (devm_kzalloc_ok env); cbn; [| unfold ENOMEM; intros H; discriminate H].
  destruct (Z.eqb_spec (hid_parse_ret env) 0) as [Hp | Hp]; cbn;
    [| intros H; contradiction].
  destruct (Z.eqb_spec (hid_hw_start_ret env) 0) as [Hs | Hs]; cbn;
    [| intros H; contradiction].
  intros _. repeat split; assumption.
Qed.

(** Rewrites a probe whose three early steps succeed to its last part. *)
Ltac probe_ok H :=
  let Hk := fresh "Hk" in
  let Hp := fresh "Hp" in
  let Hs := fresh "Hs" in
  destruct (probe_ok_inv _ _ H) as (Hk & Hp & Hs);
  unfold gigabyte_kbd_probe in *; rewrite Hk, Hp, Hs in *;
  cbn [negb Z.eqb fst snd] in *.


Lemma setup_input_dev_frame (alloc : option input_dev) (reg : Z) (s : state) :
  gigabyte_kbd_consumer_dev (snd (gigabyte_kbd_setup_input_dev alloc reg s))
  = gigabyte_kbd_consumer_dev s
  /\ gigabyte_kbd_backlight_device (snd (gigabyte_kbd_setup_input_dev alloc reg s))
     = gigabyte_kbd_backlight_device s
  /\ gigabyte_kbd_touchpad_driver (snd (gigabyte_kbd_setup_input_dev alloc reg s))
     = gigabyte_kbd_touchpad_driver s
  /\ gigabyte_kbd_touchpad_device (snd (gigabyte_kbd_setup_input_dev alloc reg s))
     = gigabyte_kbd_touchpad_device s.
Proof.
  unfold gigabyte_kbd_setup_input_dev. repeat case_match; repeat split.
Qed.



Lemma match_touchpad_device_01 (dev : device) :
  gigabyte_kbd_match_touchpad_device dev = 0
  \/ gigabyte_kbd_match_touchpad_device dev = 1.
Proof.
  unfold gigabyte_kbd_match_touchpad_device.
  repeat case_match; [right | left | left]; reflexivity.
Qed.

(** X11. After a probe that returns 0 the peripheral pointers are what the
    kernel holds at that moment, whatever they were before.  The backlight
    pointer is a backlight class device named [intel_backlight], or NULL
    when there is none.  The touchpad pointer is a device of the I2C bus
    that the identifier table matches, and then the remembered driver is
    the driver bound to it at that moment; or it is NULL when the table
    matches no device of the bus, and then the remembered driver is left as
    it was. *)
Theorem probe_discovery :
  forall (env : probe_env) (s : state),
    fst (gigabyte_kbd_probe env s) = 0 ->
    (forall bd,
        gigabyte_kbd_backlight_device (snd (gigabyte_kbd_probe env s)) = Some bd ->
        In (GIGABYTE_KBD_BACKLIGHT_DEVICE_NAME, bd) (backlight_class env))
    /\ (gigabyte_kbd_backlight_device (snd (gigabyte_kbd_probe env s)) = None ->
        forall bd, ~ In (GIGABYTE_KBD_BACKLIGHT_DEVICE_NAME, bd) (backlight_class env))
    /\ (forall dev,
          gigabyte_kbd_touchpad_device (snd (gigabyte_kbd_probe env s)) = Some dev ->
          In dev (i2c_bus env)
          /\ gigabyte_kbd_match_touchpad_device dev = 1
          /\ gigabyte_kbd_touchpad_driver (snd (gigabyte_kbd_probe env s)) = driver dev)
    /\ (gigabyte_kbd_touchpad_device (snd (gigabyte_kbd_probe env s)) = None ->
        (forall dev, In dev (i2c_bus env) -> gigabyte_kbd_match_touchpad_device dev = 0)
        /\ gigabyte_kbd_touchpad_driver (snd (gigabyte_kbd_probe env s))
           = gigabyte_kbd_touchpad_driver s).
Proof.
  intros env s H. probe_ok H.
  assert (Hbl : forall s0 : state,
             gigabyte_kbd_backlight_device
               (match bus_find_device env gigabyte_kbd_match_touchpad_device with
                | Some dev =>
                    set_touchpad_driver (driver dev)
                      (set_touchpad_device
                         (bus_find_device env gigabyte_kbd_match_touchpad_device)
                         (set_backlight_device
                            (backlight_device_get_by_name env
                               GIGABYTE_KBD_BACKLIGHT_DEVICE_NAME) s0))
                | None =>
                    set_touchpad_device
                      (bus_find_device env gigabyte_kbd_match_touchpad_device)
                      (set_backlight_device
                         (backlight_device_get_by_name env
                            GIGABYTE_KBD_BACKLIGHT_DEVICE_NAME) s0)
                end)
             = backlight_device_get_by_name env GIGABYTE_KBD_BACKLIGHT_DEVICE_NAME).
  { intros s0. destruct (bus_find_device env _); reflexivity. }
  rewrite Hbl. clear Hbl.
  unfold backlight_device_get_by_name.
  split; [| split].
  - intros bd Hfind.
    destruct (List.find _ (backlight_class env)) as [[name bd'] |] eqn:Hf;
      [| discriminate Hfind].
    cbn in Hfind. injection Hfind as ->.
    apply List.find_some in Hf as [Hin Hname]. cbn in Hname.
    apply String.eqb_eq in Hname. subst name. exact Hin.
  - intros Hfind bd Hin.
    destruct (List.find _ (backlight_class env)) as [nb |] eqn:Hf;
      [discriminate Hfind |].
    pose proof (List.find_none _ _ Hf _ Hin) as Hname. cbn in Hname.
    rewrite ?String.eqb_refl in Hname. discriminate Hname.
  - unfold bus_find_device.
    destruct (List.find _ (i2c_bus env)) as [tp |] eqn:Hf; cbn.
    + split.
      * intros dev Heq. injection Heq as <-.
        apply List.find_some in Hf as [Hin Hmatch].
        split; [exact Hin |]. split; [| reflexivity].
        destruct (match_touchpad_device_01 tp) as [H0 | H1]; [| exact H1].
        rewrite H0 in Hmatch. discriminate Hmatch.
      * intros Hnone. discriminate Hnone.
    + split.
      * intros dev Heq. discriminate Heq.
      * intros _. split.
        -- intros dev Hin.
           pose proof (List.find_none _ _ Hf _ Hin) as Hmatch. cbn in Hmatch.
           destruct (Z.eqb_spec (gigabyte_kbd_match_touchpad_device dev) 0)
             as [H0 | H0]; [exact H0 | discriminate Hmatch].
        -- cbn. rewrite (proj1 (proj2 (proj2 (setup_input_dev_frame _ _ _)))).
           repeat case_match; reflexivity.
Qed.

Lemma probe_discovery_witness :
  gigabyte_kbd_touchpad_device intel_session = Some example_touchpad
  /\ gigabyte_kbd_match_touchpad_device example_touchpad = 1
  /\ gigabyte_kbd_touchpad_driver intel_session = Some 9%nat.
Proof.
  destruct (probe_discovery intel_env init eq_refl) as (_ & _ & Hfound & _).
  destruct (Hfound example_touchpad eq_refl) as (_ & Hmatch & Hdrv).
  split; [reflexivity |]. split; [exact Hmatch | exact Hdrv].
Defined.

(** ** The Consumer Control device *)

Lemma prefix_spec (needle : string) :
  forall haystack : string,
    String.prefix needle haystack = true
    <-> exists post, haystack = String.append needle post.
Proof.
  induction needle as [| c needle IH]; intros haystack.
  - destruct haystack; cbn; (split; [intros _; eexists; reflexivity | reflexivity]).
  - destruct haystack as [| c' haystack]; cbn.
    + split; [intros H; discriminate H | intros [post H]; discriminate H].
    + destruct (Ascii.ascii_dec c c') as [<- | Hne].
      * rewrite IH. split; intros [post H]; exists post; congruence.
      * split; [intros H; discriminate H | intros [post H]; congruence].
Qed.

Lemma strstr_spec (needle : string) :
  forall haystack : string,
    strstr haystack needle = true
    <-> exists pre post, haystack = String.append pre (String.append needle post).
Proof.
  induction haystack as [| c haystack IH]; cbn [strstr].
  - rewrite orb_false_r, prefix_spec. split.
    + intros [post H]. exists EmptyString, post. exact H.
    + intros (pre & post & H). destruct pre; [exists post; exact H | discriminate H].
  - rewrite orb_true_iff, prefix_spec, IH. split.
    + intros [[post H] | (pre & post & H)].
      * exists EmptyString, post. exact H.
      * exists (String c pre), post. cbn. rewrite H. reflexivity.
    + intros (pre & post & H). destruct pre as [| c' pre]; cbn in H.
      * left. exists post. exact H.
      * right. exists pre, post. congruence.
Qed.

Lemma setup_input_dev_log (alloc : option input_dev) (reg : Z) (s : state) :
  exists es, klog (snd (gigabyte_kbd_setup_input_dev alloc reg s)) = klog s ++ es.
Proof.
  unfold gigabyte_kbd_setup_input_dev.
  destruct (gigabyte_kbd_input_dev s);
    [exists []; cbn; rewrite app_nil_r; reflexivity |].
  destruct alloc as [d |]; [| exists []; cbn; rewrite app_nil_r; reflexivity].
  destruct (negb (reg =? 0)); cbn.
  - eexists. rewrite <- app_assoc. reflexivity.
  - eexists. reflexivity.
Qed.

Lemma probe_consumer_kept (env : probe_env) (s : state) (c : input_dev) :
  gigabyte_kbd_consumer_dev s = Some c ->
  gigabyte_kbd_consumer_dev (snd (gigabyte_kbd_probe env s)) = Some c.
Proof.
  intros Hc. unfold gigabyte_kbd_probe. rewrite Hc.
  repeat case_match; cbn;
    rewrite ?(proj1 (setup_input_dev_frame _ _ _)); exact Hc.
Qed.

(** X12. A probe that returns 0 keeps a Consumer Control device that is
    already recorded.  When none is recorded it records an input device of
    the probed interface whose name contains "Consumer Control", and sets
    the two volume key bits on it; it records none only when the interface
    has no input device with such a name. *)
Theorem probe_consumer_choice :
  forall (env : probe_env) (s : state),
    fst (gigabyte_kbd_probe env s) = 0 ->
    (forall c,
        gigabyte_kbd_consumer_dev s = Some c ->
        gigabyte_kbd_consumer_dev (snd (gigabyte_kbd_probe env s)) = Some c)
    /\ (gigabyte_kbd_consumer_dev s = None ->
        (forall c,
            gigabyte_kbd_consumer_dev (snd (gigabyte_kbd_probe env s)) = Some c ->
            (exists name pre post,
                In (c, Some name) (hdev_inputs env)
                /\ name = String.append pre (String.append "Consumer Control" post))
            /\ In (SetKeybit c KEY_VOLUMEDOWN) (klog (snd (gigabyte_kbd_probe env s)))
            /\ In (SetKeybit c KEY_VOLUMEUP) (klog (snd (gigabyte_kbd_probe env s))))
        /\ (gigabyte_kbd_consumer_dev (snd (gigabyte_kbd_probe env s)) = None ->
            forall c pre post,
              ~ In (c, Some (String.append pre (String.append "Consumer Control" post)))
                  (hdev_inputs env))).
Proof.
  intros env s H. split; [intros c; apply probe_consumer_kept |].
  intros Hnone. probe_ok H. rewrite Hnone.
  match goal with
  | |- context [gigabyte_kbd_setup_input_dev ?a ?r ?s0] =>
      set (s1 := s0);
      destruct (setup_input_dev_frame a r s1) as (Hcons & _);
      destruct (setup_input_dev_log a r s1) as (es & Hlog);
      set (s2 := snd (gigabyte_kbd_setup_input_dev a r s1)) in *
  end.
  match goal with
  | |- context [gigabyte_kbd_consumer_dev ?s3] =>
      assert (Hc3 : gigabyte_kbd_consumer_dev s3 = gigabyte_kbd_consumer_dev s1)
        by (rewrite <- Hcons; repeat case_match; reflexivity);
      assert (Hl3 : klog s3 = klog s1 ++ es)
        by (rewrite <- Hlog; repeat case_match; reflexivity);
      rewrite Hc3, Hl3; clear Hc3 Hl3
  end.
  subst s1.
  destruct (List.find is_consumer_control (hdev_inputs env)) as [[c0 name0] |] eqn:Hf.
  - split; [| intros Hcontra; discriminate Hcontra].
    intros c Heq. cbn in Heq. injection Heq as <-.
    apply List.find_some in Hf as [Hin Hname].
    unfold is_consumer_control in Hname. cbn in Hname.
    destruct name0 as [name |]; [| discriminate Hname].
    apply strstr_spec in Hname as (pre & post & Hname).
    split; [exists name, pre, post; split; assumption |].
    cbn. split; apply in_or_app; left; apply in_or_app.
    + left. apply in_or_app. right. left. reflexivity.
    + right. left. reflexivity.
  - split; [intros c Heq; rewrite Hnone in Heq; discriminate Heq |].
    intros _ c pre post Hin.
    pose proof (List.find_none _ _ Hf _ Hin) as Hname.
    unfold is_consumer_control in Hname. cbn [snd] in Hname.
    assert (Htrue : strstr (String.append pre (String.append "Consumer Control" post))
                      "Consumer Control" = true)
      by (apply strstr_spec; exists pre, post; reflexivity).
    congruence.
Qed.

Lemma probe_consumer_choice_witness :
  exists name pre post,
    In (2%nat, Some name) (hdev_inputs intel_env)
    /\ name = String.append pre (String.append "Consumer Control" post).
Proof.
  destruct (probe_consumer_choice intel_env init eq_refl) as (_ & Hchoice).
  destruct (Hchoice eq_refl) as (Hsome & _).
  destruct (Hsome 2%nat eq_refl) as (Hname & _).
  exact Hname.
Defined.

Lemma remove_frame (s : state) :
  gigabyte_kbd_consumer_dev (gigabyte_kbd_remove s) = gigabyte_kbd_consumer_dev s.
Proof. unfold gigabyte_kbd_remove. repeat case_match; reflexivity. Qed.

Lemma raw_event_consumer report_id rd size s ret rd' s' :
  gigabyte_kbd_raw_event report_id rd size s = Done (ret, rd', s') ->
  gigabyte_kbd_consumer_dev s' = gigabyte_kbd_consumer_dev s.
Proof.
  intros H. apply raw_event_effects in H.
  destruct H; unfold gigabyte_kbd_emit_key, gigabyte_kbd_emit_volume, schedule_work;
    repeat case_match; cbn; congruence.
Qed.

Lemma process_one_work_consumer err s s' :
  process_one_work err s = Done s' ->
  gigabyte_kbd_consumer_dev s' = gigabyte_kbd_consumer_dev s.
Proof.
  unfold process_one_work, work_func, gigabyte_kbd_backlight_toggle,
    gigabyte_kbd_is_backlight_off, gigabyte_kbd_touchpad_toggle_driver,
    backlight_enable, backlight_disable, device_release_driver,
    device_driver_attach, mbind, outcome_bind.
  intros H.
  repeat case_match; cbn in *; simplify_eq; reflexivity.
Qed.

(** X13. The Consumer Control pointer is written once: when it is set, it
    holds the same device after every further probe, remove, raw event and
    deferred toggle; in particular no remove clears it. *)
Theorem consumer_dev_write_once :
  forall (s s' : state) (c : input_dev),
    steps s s' ->
    gigabyte_kbd_consumer_dev s = Some c ->
    gigabyte_kbd_consumer_dev s' = Some c.
Proof.
  intros s s' c Hsteps Hc.
  induction Hsteps as [| env s' _ IH | s' _ IH
                       | report_id rd size s' ret rd' s'' _ IH Hev
                       | err s' s'' _ IH Hw].
  - exact Hc.
  - apply probe_consumer_kept. exact IH.
  - rewrite remove_frame. exact IH.
  - rewrite (raw_event_consumer _ _ _ _ _ _ _ Hev). exact IH.
  - rewrite (process_one_work_consumer _ _ _ Hw). exact IH.
Qed.

Lemma consumer_dev_write_once_witness :
  gigabyte_kbd_consumer_dev
    (gigabyte_kbd_remove (snd (gigabyte_kbd_probe amdgpu_env intel_session)))
  = Some 2%nat.
Proof.
  apply (consumer_dev_write_once intel_session).
  - apply steps_remove, steps_probe, steps_refl.
  - reflexivity.
Defined.

(** ** The count and the registration, in step *)

Lemma sink_run_attaches (ops : list sink_op) :
  forall (n : Z) (s : state),
    0 <= n -> n + Z.of_nat (count_attaches ops) <= INT_MAX ->
    sink_within n s ->
    sink_within (n + Z.of_nat (count_attaches ops)) (sink_run ops s).
Proof.
  induction ops as [| [alloc reg |] ops IH]; intros n s Hn Hmax H.
  - cbn. rewrite Z.add_0_r. exact H.
  - change (count_attaches (Attach alloc reg :: ops)) with (S (count_attaches ops)) in *.
    change (sink_run (Attach alloc reg :: ops) s)
      with (sink_run ops (snd (gigabyte_kbd_setup_input_dev alloc reg s))).
    rewrite Nat2Z.inj_succ in *.
    replace (n + Z.succ (Z.of_nat (count_attaches ops)))
      with ((n + 1) + Z.of_nat (count_attaches ops)) by lia.
    apply IH; [lia | lia |].
    apply setup_within; [lia | exact H].
  - change (count_attaches (Detach :: ops)) with (count_attaches ops) in *.
    change (sink_run (Detach :: ops) s) with (sink_run ops (gigabyte_kbd_remove s)).
    apply IH; [lia | lia |].
    apply (sink_within_mono (n - 1)); [lia |].
    apply remove_within; [lia | exact H].
Qed.

(** X14. Along every run of attaches and detaches from module load with at
    most INT_MAX attaches, however many detaches: the Fn Keys device is
    registered exactly when the count is positive, and the count lies
    between 0 and the number of attaches made. *)
Theorem sink_registered_iff_counted :
  forall ops : list sink_op,
    Z.of_nat (count_attaches ops) <= INT_MAX ->
    (gigabyte_kbd_input_dev (sink_run ops init) <> None
     <-> 0 < gigabyte_kbd_refcount (sink_run ops init))
    /\ 0 <= gigabyte_kbd_refcount (sink_run ops init) <= Z.of_nat (count_attaches ops).
Proof.
  intros ops Hmax.
  destruct (sink_run_attaches ops 0 init) as [[Hd Hr] | (d & Hd & Hr)];
    [lia | lia | left; split; reflexivity | |].
  - rewrite Hd, Hr. split; [| lia].
    split; [intros Hne; contradiction | lia].
  - rewrite Hd. split; [| lia].
    split; [lia | discriminate].
Qed.

Lemma sink_registered_iff_counted_witness :
  0 <= gigabyte_kbd_refcount
         (sink_run [Attach (Some 3%nat) 0; Detach; Detach; Detach; Attach None 0;
                    Attach (Some 4%nat) 0; Attach None 0] init)
    <= 4.
Proof.
  assert (Hmax : Z.of_nat
                   (count_attaches
                      [Attach (Some 3%nat) 0; Detach; Detach; Detach; Attach None 0;
                       Attach (Some 4%nat) 0; Attach None 0]) <= INT_MAX)
    by (vm_compute; discriminate).
  exact (proj2 (sink_registered_iff_counted _ Hmax)).
Defined.

(** ** Registrations and their undoing *)

Lemma count_calls_app (p : event -> bool) (l1 l2 : list event) :
  count_calls p (l1 ++ l2) = (count_calls p l1 + count_calls p l2)%nat.
Proof. unfold count_calls. rewrite List.filter_app, length_app. reflexivity. Qed.

Lemma count_calls_none (p : event -> bool) (es : list event) :
  (forall e, p e = true -> is_sink_call e = true) ->
  forallb (fun e => negb (is_sink_call e)) es = true ->
  count_calls p es = 0%nat.
Proof.
  intros Hp. induction es as [| e es IH]; intros Hes; [reflexivity |].
  cbn in Hes. apply andb_prop in Hes as [He Hes].
  unfold count_calls in *. cbn.
  destruct (p e) eqn:Hpe; [| apply IH; exact Hes].
  rewrite (Hp e Hpe) in He. discriminate He.
Qed.

Lemma balanced_frame (s s' : state) (es : list event) :
  klog s' = klog s ++ es ->
  forallb (fun e => negb (is_sink_call e)) es = true ->
  gigabyte_kbd_input_dev s' = gigabyte_kbd_input_dev s ->
  sink_calls_balanced s -> sink_calls_balanced s'.
Proof.
  intros Hlog Hes Hd [Hreg Hfail]. unfold sink_calls_balanced.
  rewrite Hlog, Hd, !count_calls_app.
  rewrite !(count_calls_none _ es) by
    (try exact Hes; intros e He; unfold is_sink_call; rewrite He;
     rewrite ?orb_true_r; reflexivity).
  rewrite !Nat.add_0_r. split; assumption.
Qed.

Lemma count_calls_snoc (p : event -> bool) (l : list event) (e : event) :
  count_calls p (l ++ [e]) = (count_calls p l + if p e then 1 else 0)%nat.
Proof.
  rewrite count_calls_app. unfold count_calls at 2. cbn.
  destruct (p e); reflexivity.
Qed.

Lemma setup_balanced (alloc : option input_dev) (reg : Z) (s : state) :
  sink_calls_balanced s ->
  sink_calls_balanced (snd (gigabyte_kbd_setup_input_dev alloc reg s)).
Proof.
  intros Hbal. pose proof Hbal as [Hreg Hfail].
  unfold gigabyte_kbd_setup_input_dev.
  destruct (gigabyte_kbd_input_dev s) as [d0 |] eqn:Hd.
  - unfold sink_calls_balanced. cbn -[count_calls]. rewrite ?Hd. split; assumption.
  - destruct alloc as [d |]; [| exact Hbal].
    destruct (Z.eqb_spec reg 0) as [-> | Hne];
      unfold sink_calls_balanced; cbn -[count_calls]; rewrite ?Hd;
      rewrite !count_calls_snoc; cbn -[count_calls].
    + lia.
    + assert (Hreg0 : (reg =? 0) = false) by (apply Z.eqb_neq; exact Hne).
      rewrite Hreg0. cbn -[count_calls]. lia.
Qed.

Lemma remove_balanced (s : state) :
  sink_calls_balanced s -> sink_calls_balanced (gigabyte_kbd_remove s).
Proof.
  intros Hbal.
  assert (Hstop : sink_calls_balanced (emit HidHwStop s)).
  { apply (balanced_frame s _ [HidHwStop]); [reflexivity .. | exact Hbal]. }
  unfold gigabyte_kbd_remove. cbn -[count_calls].
  destruct (0 <? gigabyte_kbd_refcount s); [| exact Hstop].
  destruct (int_wrap (gigabyte_kbd_refcount s - 1) =? 0); cbn -[count_calls].
  - destruct Hstop as [Hreg Hfail]. cbn -[count_calls] in Hreg, Hfail.
    destruct (gigabyte_kbd_input_dev s) as [d |] eqn:Hd;
      unfold sink_calls_balanced; cbn -[count_calls]; rewrite ?Hd.
    + rewrite !(count_calls_snoc _ (klog s ++ [HidHwStop])). cbn -[count_calls]. lia.
    + split; assumption.
  - apply (balanced_frame (emit HidHwStop s) _ []);
      [cbn; rewrite app_nil_r; reflexivity | reflexivity | reflexivity | exact Hstop].
Qed.

Lemma probe_balanced (env : probe_env) (s : state) :
  sink_calls_balanced s -> sink_calls_balanced (snd (gigabyte_kbd_probe env s)).
Proof.
  intros Hbal. unfold gigabyte_kbd_probe.
  destruct (negb (devm_kzalloc_ok env)); [exact Hbal |].
  destruct (negb (hid_parse_ret env =? 0)); [exact Hbal |].
  destruct (negb (hid_hw_start_ret env =? 0)); [exact Hbal |].
  cbn [snd].
  match goal with
  | |- context [gigabyte_kbd_setup_input_dev ?a ?r ?s0] =>
      assert (Hbal0 : sink_calls_balanced s0);
      [| pose proof (setup_balanced a r s0 Hbal0) as Hbal1;
         set (s1 := snd (gigabyte_kbd_setup_input_dev a r s0)) in * ]
  end.
  - destruct (gigabyte_kbd_consumer_dev s); [exact Hbal |].
    destruct (List.find is_consumer_control (hdev_inputs env)) as [hi |];
      [| exact Hbal].
    eapply (balanced_frame s _ [SetKeybit hi.1 KEY_VOLUMEDOWN; SetKeybit hi.1 KEY_VOLUMEUP]);
      [cbn; rewrite <- app_assoc; reflexivity | reflexivity | reflexivity | exact Hbal].
  - eapply (balanced_frame s1 _ []);
      [rewrite app_nil_r; repeat case_match; reflexivity | reflexivity
      | repeat case_match; reflexivity | exact Hbal1].
Qed.

Lemma raw_event_balanced report_id rd size s ret rd' s' :
  gigabyte_kbd_raw_event report_id rd size s = Done (ret, rd', s') ->
  sink_calls_balanced s -> sink_calls_balanced s'.
Proof.
  intros H. pose proof (raw_event_sink _ _ _ _ _ _ _ H) as [Hd _].
  apply raw_event_effects in H.
  assert (Hlog : exists es, klog s' = klog s ++ es
                            /\ forallb is_atomic_call es = true).
  { destruct H as [| k | k pressed | w | rd0 size0].
    - exists []. rewrite app_nil_r. split; reflexivity.
    - destruct (emit_key_calls (gigabyte_kbd_input_dev s) k s) as (es & -> & Hes).
      exists es. split; [reflexivity | exact Hes].
    - destruct (emit_volume_calls k pressed s) as (es & -> & Hes).
      exists es. split; [reflexivity | exact Hes].
    - exists [ScheduleWork w]. split; [| reflexivity].
      unfold schedule_work. case_decide; reflexivity.
    - eexists. split; reflexivity. }
  destruct Hlog as (es & Hlog & Hes).
  apply (balanced_frame s s' es Hlog); [| exact Hd].
  clear -Hes. induction es as [| e es IH]; [reflexivity |].
  cbn in *. apply andb_prop in Hes as [He Hes].
  rewrite (IH Hes), andb_true_r. destruct e; try discriminate He; reflexivity.
Qed.

Lemma process_one_work_balanced err s s' :
  process_one_work err s = Done s' ->
  sink_calls_balanced s -> sink_calls_balanced s'.
Proof.
  intros H. pose proof (process_one_work_frame _ _ _ H) as (Hd & _ & _).
  assert (Hlog : exists es, klog s' = klog s ++ es
                            /\ forallb (fun e => negb (is_sink_call e)) es = true).
  { revert H.
    unfold process_one_work, work_func, gigabyte_kbd_backlight_toggle,
      gigabyte_kbd_is_backlight_off, gigabyte_kbd_touchpad_toggle_driver,
      backlight_enable, backlight_disable, device_release_driver,
      device_driver_attach, mbind, outcome_bind.
    intros H.
    repeat case_match; cbn in *; simplify_eq; cbn;
      first [ exists []; rewrite app_nil_r; split; reflexivity
            | eexists; split; [reflexivity | reflexivity]
            | eexists; split; [rewrite <- app_assoc; reflexivity | reflexivity] ]. }
  destruct Hlog as (es & Hlog & Hes).
  apply (balanced_frame s s' es Hlog Hes Hd).
Qed.

(** X15. In every reachable state the log shows as many successful
    registrations of the Fn Keys device as unregistrations, plus one when a
    device is registered now; and as many failed registrations as frees.
    So no registered device is ever dropped without being unregistered, a
    device is never unregistered twice, and an allocated device whose
    registration fails is always freed. *)
Theorem sink_registrations_balance :
  forall s : state,
    reachable s ->
    count_calls is_register_ok (klog s)
    = (count_calls is_unregister (klog s)
       + match gigabyte_kbd_input_dev s with Some _ => 1 | None => 0 end)%nat
    /\ count_calls is_register_failed (klog s) = count_calls is_free (klog s).
Proof.
  intros s Hreach. change (sink_calls_balanced s).
  induction Hreach as [| env s _ IH | s _ IH | report_id rd size s ret rd' s' _ IH Hev
                       | err s s' _ IH Hw].
  - split; reflexivity.
  - apply probe_balanced. exact IH.
  - apply remove_balanced. exact IH.
  - eapply raw_event_balanced; eassumption.
  - eapply process_one_work_balanced; eassumption.
Qed.

Lemma sink_registrations_balance_witness :
  count_calls is_register_ok (klog (gigabyte_kbd_remove intel_session))
  = count_calls is_unregister (klog (gigabyte_kbd_remove intel_session)).
Proof.
  destruct (sink_registrations_balance (gigabyte_kbd_remove intel_session)) as [Hreg _].
  - apply reachable_remove, (reachable_probe intel_env init), reachable_init.
  - rewrite Hreg. reflexivity.
Defined.

(** ** Fn+F10 from the key to the touchpad *)

(** X16. With a touchpad found and bound to a driver, and no work pending:
    a Fn+F10 report is passed through and schedules the toggle, and the
    worker then releases the driver; a second Fn+F10 report followed by the
    worker attaches that same driver again (when the driver core accepts
    it).  Each time the queue is empty again after the worker has run. *)
Theorem touchpad_key_end_to_end :
  forall (s : state) (dev : device) (drv : device_driver) (err : Z),
    gigabyte_kbd_touchpad_device s = Some dev ->
    driver dev = Some drv ->
    wq_pending s = [] ->
    exists s1 s2 s3 s4 : state,
      gigabyte_kbd_raw_event 4 [4; 0; 0; 0x81] 4 s = Done (0, [4; 0; 0; 0x81], s1)
      /\ process_one_work err s1 = Done s2
      /\ driver <$> gigabyte_kbd_touchpad_device s2 = Some None
      /\ wq_pending s2 = []
      /\ gigabyte_kbd_raw_event 4 [4; 0; 0; 0x81] 4 s2 = Done (0, [4; 0; 0; 0x81], s3)
      /\ process_one_work 0 s3 = Done s4
      /\ driver <$> gigabyte_kbd_touchpad_device s4 = Some (Some drv)
      /\ wq_pending s4 = []
      /\ klog s4
         = klog s ++ [ScheduleWork gigabyte_kbd_touchpad_toggle_driver_work;
                      RunWork gigabyte_kbd_touchpad_toggle_driver_work;
                      DeviceReleaseDriver;
                      ScheduleWork gigabyte_kbd_touchpad_toggle_driver_work;
                      RunWork gigabyte_kbd_touchpad_toggle_driver_work;
                      DeviceDriverAttach drv 0].
Proof.
  intros s dev drv err Hdev Hdrv Hq.
  assert (Hcode : u32 (make_u32 4 0 0 0x81) = HIDRAW_FN_F10) by reflexivity.
  pose (w := gigabyte_kbd_touchpad_toggle_driver_work).
  set (s1 := set_wq_pending [w] (emit (ScheduleWork w) s)).
  set (s2 := emit DeviceReleaseDriver
               (set_touchpad_device
                  (Some {| ACPI_COMPANION := ACPI_COMPANION dev; driver := None |})
                  (set_touchpad_driver (Some drv)
                     (emit (RunWork w) (set_wq_pending [] s1))))).
  set (s3 := set_wq_pending [w] (emit (ScheduleWork w) s2)).
  set (s4 := set_touchpad_device
               (Some {| ACPI_COMPANION := ACPI_COMPANION dev; driver := Some drv |})
               (emit (DeviceDriverAttach drv 0)
                  (emit (RunWork w) (set_wq_pending [] s3)))).
  assert (H1 : schedule_work w s = s1).
  { rewrite schedule_work_fresh by (rewrite Hq; apply not_elem_of_nil).
    rewrite Hq. reflexivity. }
  assert (H3 : schedule_work w s2 = s3).
  { rewrite schedule_work_fresh by apply not_elem_of_nil. reflexivity. }
  exists s1, s2, s3, s4. unfold w in *.
  split. { dispatch Hcode. rewrite Hdev, H1. reflexivity. }
  split.
  { unfold process_one_work. cbn.
    unfold gigabyte_kbd_touchpad_toggle_driver. cbn. rewrite Hdev, Hdrv.
    unfold device_release_driver. cbn. rewrite Hdev. reflexivity. }
  split; [reflexivity |].
  split; [reflexivity |].
  split. { dispatch Hcode. rewrite H3. reflexivity. }
  split; [reflexivity |].
  split; [reflexivity |].
  split; [reflexivity |].
  cbn. rewrite <- !app_assoc. reflexivity.
Qed.

Lemma touchpad_key_end_to_end_witness :
  exists s1 s2 s3 s4 : state,
    gigabyte_kbd_raw_event 4 [4; 0; 0; 0x81] 4 intel_session
    = Done (0, [4; 0; 0; 0x81], s1)
    /\ process_one_work 0 s1 = Done s2
    /\ driver <$> gigabyte_kbd_touchpad_device s2 = Some None
    /\ gigabyte_kbd_raw_event 4 [4; 0; 0; 0x81] 4 s2 = Done (0, [4; 0; 0; 0x81], s3)
    /\ process_one_work 0 s3 = Done s4
    /\ driver <$> gigabyte_kbd_touchpad_device s4 = Some (Some 9%nat).
Proof.
  destruct (touchpad_key_end_to_end intel_session example_touchpad 9%nat 0
              eq_refl eq_refl eq_refl)
    as (s1 & s2 & s3 & s4 & H1 & H2 & Hu & _ & H3 & H4 & Hb & _).
  exists s1, s2, s3, s4. repeat split; assumption.
Defined.
